(** * respiratory_sounds: a shallow embedding of the dataset loader

    The Python package [respiratory_sounds] decodes recording file names,
    demographic lines and diagnosis names, and caches the assembled tables
    on disk.  This development embeds those functions as Rocq functions
    and proves the properties the package is documented to have.

    Conventions.
    - A Python [str] is a [string]; each character stands for the code
      point of the same number (U+0000 .. U+00FF).
    - A Python [int] is a [Z].
    - A function that may raise returns a [result]: [Ok v] or [Raise e],
      [e] naming the Python exception class.
    - The file system is a finite map from path strings to nodes. *)

From Stdlib Require Import ZArith Lia List Ascii String Bool.
From stdpp Require Import base gmap strings list fin_maps.

Import ListNotations.
Local Open Scope string_scope.
Local Open Scope Z_scope.

(** ** Exceptions and results *)

Inductive exn : Type :=
| AssertionError
| TypeError
| IndexError
| ValueError
| KeyError
| FileNotFoundError
| FileExistsError
| IsADirectoryError
| NotADirectoryError
| UnpicklingError
| LibraryError (what : string).

Inductive result (A : Type) : Type :=
| Ok (a : A)
| Raise (e : exn).

Arguments Ok {A} a.
Arguments Raise {A} e.

Definition bind {A B : Type} (m : result A) (k : A -> result B) : result B :=
  match m with
  | Ok a => k a
  | Raise e => Raise e
  end.

Notation "'let*' x ':=' m 'in' k" := (bind m (fun x => k))
  (at level 10, x pattern, m at level 100, k at level 200).

(** [assert cond] *)
Definition assert (cond : bool) : result unit :=
  if cond then Ok tt else Raise AssertionError.

(** [[f(x) for x in xs]]: the first exception ends the comprehension. *)
Fixpoint map_result {A B : Type} (f : A -> result B) (xs : list A) : result (list B) :=
  match xs with
  | [] => Ok []
  | x :: xs' =>
      let* y := f x in
      let* ys := map_result f xs' in
      Ok (y :: ys)
  end.

Definition is_ok {A : Type} (r : result A) : bool :=
  match r with Ok _ => true | Raise _ => false end.

(** ** Python sequence primitives *)

Module Py.

(** The values a list or a named tuple of this package holds. *)
Inductive value : Type :=
| VStr (s : string)
| VInt (z : Z).

(** [a == b] *)
Definition value_eqb (a b : value) : bool :=
  match a, b with
  | VStr s, VStr t => String.eqb s t
  | VInt x, VInt y => Z.eqb x y
  | _, _ => false
  end.

(** [l[i]] for a list [l] and an int [i]: a negative index counts from
    the end, anything outside [-len(l), len(l)) raises IndexError. *)
Definition getitem {A : Type} (l : list A) (i : Z) : result A :=
  let n := Z.of_nat (length l) in
  let j := if i <? 0 then i + n else i in
  if (j <? 0) || (n <=? j) then Raise IndexError
  else match l !! Z.to_nat j with
       | Some x => Ok x
       | None => Raise IndexError
       end.

(** [l.index(x)]: the position of the first element equal to [x],
    ValueError when there is none. *)
Fixpoint index_from (x : string) (l : list string) (pos : Z) : result Z :=
  match l with
  | [] => Raise ValueError
  | y :: l' => if String.eqb y x then Ok pos else index_from x l' (pos + 1)
  end.

Definition index (l : list string) (x : string) : result Z := index_from x l 0.

End Py.

(** ** Python string primitives *)

Module PyStr.

Definition code (c : ascii) : N := N_of_ascii c.

(** [str.isspace] on one character: the separators of [str.split()]
    and the characters [str.strip()] removes. *)
Definition isspace (c : ascii) : bool :=
  let n := code c in
  (((9 <=? n) && (n <=? 13)) || ((28 <=? n) && (n <=? 32))
   || (n =? 133) || (n =? 160))%N.

Definition is_empty (s : string) : bool :=
  match s with EmptyString => true | String _ _ => false end.

(** [c in s] for a character [c]. *)
Fixpoint contains (c : ascii) (s : string) : bool :=
  match s with
  | EmptyString => false
  | String a s' => Ascii.eqb c a || contains c s'
  end.

(** The pieces of [s] between the characters that satisfy [sep];
    [n] separators give [n + 1] pieces, some of them possibly empty. *)
Fixpoint split_by (sep : ascii -> bool) (s : string) : list string :=
  match s with
  | EmptyString => [EmptyString]
  | String c s' =>
      if sep c then EmptyString :: split_by sep s'
      else match split_by sep s' with
           | w :: ws => String c w :: ws
           | [] => [String c EmptyString]
           end
  end.

(** [s.split(c)] for a one-character separator. *)
Definition split (c : ascii) (s : string) : list string :=
  split_by (Ascii.eqb c) s.

(** [s.split()]: runs of whitespace separate, no empty piece is kept. *)
Definition split_whitespace (s : string) : list string :=
  filter (fun w => is_empty w = false) (split_by isspace s).

(** [sep.join(parts)] *)
Fixpoint join (sep : string) (parts : list string) : string :=
  match parts with
  | [] => EmptyString
  | [w] => w
  | w :: ws => w ++ sep ++ join sep ws
  end.

Fixpoint lstrip_by (p : ascii -> bool) (s : string) : string :=
  match s with
  | EmptyString => EmptyString
  | String c s' => if p c then lstrip_by p s' else s
  end.

Fixpoint rstrip_by (p : ascii -> bool) (s : string) : string :=
  match s with
  | EmptyString => EmptyString
  | String c s' =>
      let r := rstrip_by p s' in
      if p c && is_empty r then EmptyString else String c r
  end.

(** [s.strip()] *)
Definition strip (s : string) : string := rstrip_by isspace (lstrip_by isspace s).

(** [s.lower()], character by character. *)
Definition lower_char (c : ascii) : ascii :=
  let n := code c in
  if (((65 <=? n) && (n <=? 90))
      || ((192 <=? n) && (n <=? 222) && negb (n =? 215)))%N
  then ascii_of_N (n + 32) else c.

Fixpoint lower (s : string) : string :=
  match s with
  | EmptyString => EmptyString
  | String c s' => String (lower_char c) (lower s')
  end.

(** [s.endswith(suffix)] *)
Fixpoint endswith (s suffix : string) : bool :=
  String.eqb s suffix
  || match s with
     | EmptyString => false
     | String _ s' => endswith s' suffix
     end.

(** [s.startswith(prefix)] *)
Fixpoint startswith (s prefix : string) : bool :=
  match prefix, s with
  | EmptyString, _ => true
  | String p prefix', String c s' => Ascii.eqb c p && startswith s' prefix'
  | String _ _, EmptyString => false
  end.

(** *** [int(s)] for a string *)

Definition is_digit (c : ascii) : bool := ((48 <=? code c) && (code c <=? 57))%N.

Definition digit_value (c : ascii) : Z := Z.of_N (code c) - 48.

(** The blanks [int] skips around the literal. *)
Definition int_blank (c : ascii) : bool :=
  let n := code c in
  (((9 <=? n) && (n <=? 13)) || (n =? 32) || (n =? 133) || (n =? 160))%N.

Inductive int_state : Type := AtStart | AfterDigit | AfterUnderscore.

(** Digits, with single underscores allowed between two digits. *)
Fixpoint int_body (st : int_state) (acc : Z) (s : string) : option Z :=
  match s with
  | EmptyString => match st with AfterDigit => Some acc | _ => None end
  | String c s' =>
      if is_digit c then int_body AfterDigit (10 * acc + digit_value c) s'
      else if Ascii.eqb c "_"
           then match st with
                | AfterDigit => int_body AfterUnderscore acc s'
                | _ => None
                end
           else None
  end.

Definition int_literal (s : string) : option Z :=
  match rstrip_by int_blank (lstrip_by int_blank s) with
  | String "+" r => int_body AtStart 0 r
  | String "-" r => option_map Z.opp (int_body AtStart 0 r)
  | t => int_body AtStart 0 t
  end.

Definition int (s : string) : result Z :=
  match int_literal s with
  | Some z => Ok z
  | None => Raise ValueError
  end.

End PyStr.

(** ** posixpath *)

Module PosixPath.

(** [(p[:i], p[i:])] with [i = p.rfind('/') + 1]. *)
Fixpoint cut (p : string) : string * string :=
  match p with
  | EmptyString => (EmptyString, EmptyString)
  | String c p' =>
      let (h, t) := cut p' in
      if Ascii.eqb c "/" || negb (PyStr.is_empty h)
      then (String c h, t)
      else (EmptyString, String c t)
  end.

Fixpoint all_slashes (s : string) : bool :=
  match s with
  | EmptyString => true
  | String c s' => Ascii.eqb c "/" && all_slashes s'
  end.

(** [if head and head != '/' * len(head): head = head.rstrip('/')] *)
Definition trim_head (head : string) : string :=
  if negb (PyStr.is_empty head) && negb (all_slashes head)
  then PyStr.rstrip_by (Ascii.eqb "/") head
  else head.

(** [os.path.split(p)] *)
Definition split (p : string) : string * string :=
  let (head, tail) := cut p in (trim_head head, tail).

(** [os.path.dirname(p)] *)
Definition dirname (p : string) : string := trim_head (fst (cut p)).

(** [os.path.join(a, b)] *)
Definition join (a b : string) : string :=
  if PyStr.startswith b "/" then b
  else if PyStr.is_empty a || PyStr.endswith a "/" then a ++ b
  else a ++ "/" ++ b.

End PosixPath.

(** [int(v)] for a value of either kind. *)
Definition int_of_value (v : Py.value) : result Z :=
  match v with
  | Py.VStr s => PyStr.int s
  | Py.VInt z => Ok z
  end.

(** ** The file system and the calls that touch it

    The store maps a path string to the node found there.  Paths are the
    strings the program passes: two spellings of one location are two
    keys, and the empty path names nothing.  A path whose directory part
    is empty is relative to the working directory, which exists.

    [loader_calls] counts the invocations of a data frame loader; no
    operation of the program reads it. *)

Module Os.

Inductive node : Type :=
| File (content : string)
| Dir.

Record world : Type := World {
  files : gmap string node;
  loader_calls : nat
}.

Definition io (A : Type) : Type := world -> result A * world.

Definition ret {A : Type} (a : A) : io A := fun w => (Ok a, w).

Definition raise {A : Type} (e : exn) : io A := fun w => (Raise e, w).

Definition bind {A B : Type} (m : io A) (k : A -> io B) : io B :=
  fun w =>
    match m w with
    | (Ok a, w') => k a w'
    | (Raise e, w') => (Raise e, w')
    end.

Definition lift {A : Type} (r : result A) : io A := fun w => (r, w).

Definition stat (fs : gmap string node) (p : string) : option node :=
  if PyStr.is_empty p then None else fs !! p.

(** [os.path.exists(p)] *)
Definition path_exists (p : string) : io bool :=
  fun w => (Ok (match stat (files w) p with Some _ => true | None => false end), w).

(** [os.path.isfile(p)] *)
Definition path_isfile (p : string) : io bool :=
  fun w => (Ok (match stat (files w) p with Some (File _) => true | _ => false end), w).

(** The directory a new entry [p] goes into must be there. *)
Definition check_parent (fs : gmap string node) (p : string) : result unit :=
  let d := PosixPath.dirname p in
  if PyStr.is_empty d then Ok tt
  else match stat fs d with
       | Some Dir => Ok tt
       | Some (File _) => Raise NotADirectoryError
       | None => Raise FileNotFoundError
       end.

Definition set_files (w : world) (fs : gmap string node) : world :=
  {| files := fs; loader_calls := loader_calls w |}.

(** [os.mkdir(p)]: one directory, never its ancestors. *)
Definition mkdir (p : string) : io unit :=
  fun w =>
    if PyStr.is_empty p then (Raise FileNotFoundError, w)
    else match check_parent (files w) p with
         | Raise e => (Raise e, w)
         | Ok _ =>
             match stat (files w) p with
             | Some _ => (Raise FileExistsError, w)
             | None => (Ok tt, set_files w (<[p := Dir]> (files w)))
             end
         end.

(** [open(p, 'wb')], [write(content)], [close()] *)
Definition write_file (p : string) (content : string) : io unit :=
  fun w =>
    if PyStr.is_empty p then (Raise FileNotFoundError, w)
    else match check_parent (files w) p with
         | Raise e => (Raise e, w)
         | Ok _ =>
             match stat (files w) p with
             | Some Dir => (Raise IsADirectoryError, w)
             | _ =>
                 if PyStr.endswith p "/" then (Raise IsADirectoryError, w)
                 else (Ok tt, set_files w (<[p := File content]> (files w)))
             end
         end.

(** [open(p, 'rb')], [read()], [close()] *)
Definition read_file (p : string) : io string :=
  fun w =>
    match stat (files w) p with
    | Some (File content) => (Ok content, w)
    | Some Dir => (Raise IsADirectoryError, w)
    | None => (Raise FileNotFoundError, w)
    end.

(** [os.remove(p)] *)
Definition remove (p : string) : io unit :=
  fun w =>
    match stat (files w) p with
    | Some (File _) => (Ok tt, set_files w (delete p (files w)))
    | Some Dir => (Raise IsADirectoryError, w)
    | None => (Raise FileNotFoundError, w)
    end.

End Os.

Notation "'do*' x ':=' m 'in' k" := (Os.bind m (fun x => k))
  (at level 10, x pattern, m at level 100, k at level 200).

(** ** _tools.py *)

Module Tools.

Definition create_path_if_nonexistent (path : string) : Os.io unit :=
  do* found := Os.path_exists path in
  if negb found then Os.mkdir path else Os.ret tt.

(** [base] is what [get_data_set_base_path()] returns: the directory of
    the package. *)
Definition get_temporary_dir (base : string) : Os.io string :=
  let temp_path := PosixPath.join base "temp" in
  do* _ := create_path_if_nonexistent temp_path in
  Os.ret temp_path.

Definition diagnosis_class_name_mapping : list string :=
  [ "Healthy";
    "Asthma";
    "Bronchiectasis";
    "Bronchiolitis";
    "COPD";
    "LRTI";
    "Pneumonia";
    "URTI" ].

Definition convert_diagnosis_class_to_name (label : Z) : result string :=
  Py.getitem diagnosis_class_name_mapping label.

Definition convert_diagnosis_name_to_class (diagnosis : string) : result Z :=
  Py.index diagnosis_class_name_mapping diagnosis.

End Tools.

(** ** _recordings.py *)

Module Recordings.

Import Py.

Record RecordingMetaInfo : Type := {
  patient_number : value;
  recording_index : value;
  chest_location : value;
  num_channels : value;
  recording_equipment : value
}.

(** The constructor call with the unpacked list: five positional arguments. *)
Definition RecordingMetaInfo_of_list (values : list value) : result RecordingMetaInfo :=
  match values with
  | [a; b; c; d; e] =>
      Ok {| patient_number := a; recording_index := b; chest_location := c;
            num_channels := d; recording_equipment := e |}
  | _ => Raise TypeError
  end.

Record DirEntry : Type := { name : string; path : string }.

Definition _is_wav (filename : string) : bool :=
  let lowered := PyStr.lower filename in
  PyStr.endswith lowered ".wav" || PyStr.endswith lowered ".wave".

(** The entries are those [os.scandir] yields for the audio directory. *)
Definition _get_wav_dir_entries (entries : list DirEntry) : list DirEntry :=
  filter (fun entry => _is_wav (name entry) = true) entries.

Definition _extract_file_name_without_extension_from_path (file_path : string)
  : result string :=
  let (_, file_name) := PosixPath.split file_path in
  let* _ := assert (negb (String.eqb file_name "")) in
  let file_name_without_extension := PyStr.split "." file_name in
  let* _ := assert (2 <=? Z.of_nat (length file_name_without_extension)) in
  Ok (PyStr.join "." (removelast file_name_without_extension)).

Definition _get_file_paths (dir_entries : list DirEntry) : list string :=
  map path dir_entries.

Definition _extract_meta_info_from_file_name (file_name : string)
  : result RecordingMetaInfo :=
  let record_data_values := map VStr (PyStr.split "_" file_name) in
  let* mode := getitem record_data_values 3 in
  let record_data_values :=
    <[3%nat := VInt (if value_eqb mode (VStr "sc") then 1 else 2)]> record_data_values in
  let* _ := assert (Z.of_nat (length record_data_values) =? 5) in
  let* first := getitem record_data_values 0 in
  let* number := int_of_value first in
  let record_data_values := <[0%nat := VInt number]> record_data_values in
  RecordingMetaInfo_of_list record_data_values.

Definition _load_recording_meta_info (wav_file_paths : list string)
  : result (list RecordingMetaInfo) :=
  map_result
    (fun wav_file_path =>
       let* stem := _extract_file_name_without_extension_from_path wav_file_path in
       _extract_meta_info_from_file_name stem)
    wav_file_paths.

Section Audio.

(** The decoder is [librosa.load]; what it returns is opaque here. *)
Variables audio rate : Type.
Variable librosa_load : string -> result (audio * rate).

Definition _load_recording_datum (file_path : string) : result (audio * rate) :=
  let* (samples, sample_rate) := librosa_load file_path in
  Ok (samples, sample_rate).

Definition _load_recording_data (wav_file_paths : list string)
  : result (list (audio * rate)) :=
  map_result _load_recording_datum wav_file_paths.

Record RecordingRow : Type := {
  recording_id : Z;
  meta : RecordingMetaInfo;
  audio_recording : audio;
  sample_rate : rate
}.

(** [pd.concat([recording_id, recording_meta_info, recording_data], axis=1)]:
    the three frames carry the default index, so row [i] of the result
    is made of the three rows [i]. *)
Fixpoint concat_columns (ids : list Z) (metas : list RecordingMetaInfo)
  (data : list (audio * rate)) : list RecordingRow :=
  match ids, metas, data with
  | i :: ids', m :: metas', (a, r) :: data' =>
      {| recording_id := i; meta := m; audio_recording := a; sample_rate := r |}
      :: concat_columns ids' metas' data'
  | _, _, _ => []
  end.

(** [range(n)] *)
Definition range (n : nat) : list Z := map Z.of_nat (seq 0 n).

(** The last four lines of [load_recordings], as a function of the two
    sub-tables. *)
Definition assemble_recordings (recording_data : list (audio * rate))
  (recording_meta_info : list RecordingMetaInfo) : result (list RecordingRow) :=
  let num_recordings := length recording_data in
  let* _ := assert (Nat.eqb num_recordings (length recording_data)
                    && Nat.eqb (length recording_data) (length recording_meta_info)) in
  let recording_id := range num_recordings in
  Ok (concat_columns recording_id recording_meta_info recording_data).

Definition load_recordings (entries : list DirEntry) : result (list RecordingRow) :=
  let wav_file_paths := _get_file_paths (_get_wav_dir_entries entries) in
  let* recording_data := _load_recording_data wav_file_paths in
  let* recording_meta_info := _load_recording_meta_info wav_file_paths in
  assemble_recordings recording_data recording_meta_info.

End Audio.

Arguments recording_id {audio rate} _.
Arguments meta {audio rate} _.
Arguments audio_recording {audio rate} _.
Arguments sample_rate {audio rate} _.
Arguments concat_columns {audio rate} _ _ _.
Arguments assemble_recordings {audio rate} _ _.
Arguments load_recordings {audio rate} _ _.
Arguments _load_recording_data {audio rate} _ _.
Arguments _load_recording_datum {audio rate} _ _.

End Recordings.

(** ** _patients.py *)

Module Patients.

Import Py.

Record Patient : Type := {
  patient_number : value;
  age : value;
  sex : value;
  adult_bmi : value;
  child_weight : value;
  child_height : value
}.

(** The constructor call with the unpacked list: six positional arguments. *)
Definition Patient_of_list (fields : list value) : result Patient :=
  match fields with
  | [a; b; c; d; e; f] =>
      Ok {| patient_number := a; age := b; sex := c; adult_bmi := d;
            child_weight := e; child_height := f |}
  | _ => Raise TypeError
  end.

(** The body of the loop over the lines of the file. *)
Definition demographic_line (line : string) : result Patient :=
  let fields := PyStr.split_whitespace (PyStr.strip line) in
  let* _ := assert (Z.of_nat (length fields) =? 6) in
  Patient_of_list (map VStr fields).

(** [df['patient_number']] of [df = pd.DataFrame(patient_info)]: a frame
    built from no row has no column. *)
Definition patient_number_column (df : list Patient) : result (list value) :=
  match df with
  | [] => Raise KeyError
  | _ :: _ => Ok (map patient_number df)
  end.

Definition set_patient_number (p : Patient) (v : value) : Patient :=
  {| patient_number := v; age := age p; sex := sex p; adult_bmi := adult_bmi p;
     child_weight := child_weight p; child_height := child_height p |}.

(** [df['patient_number'] = column] *)
Fixpoint assign_patient_number (df : list Patient) (column : list value) : list Patient :=
  match df, column with
  | p :: df', v :: column' => set_patient_number p v :: assign_patient_number df' column'
  | _, _ => df
  end.

Fixpoint all_digits (s : string) : bool :=
  match s with
  | EmptyString => true
  | String c s' => PyStr.is_digit c && all_digits s'
  end.

(** The cells [pd.to_numeric] reads as 64-bit integers: text of decimal
    digits only, with a value below 2^63. *)
Definition int64_cell (v : value) : option Z :=
  match v with
  | VStr s =>
      if all_digits s
      then match PyStr.int_body PyStr.AtStart 0 s with
           | Some z => if z <? 2 ^ 63 then Some z else None
           | None => None
           end
      else None
  | VInt _ => None
  end.

(** A conversion that reads integer cells and rejects every other one;
    it instantiates [to_numeric] in the examples. *)
Definition to_numeric_integers (column : list value) : result (list value) :=
  map_result (fun v => match int64_cell v with
                       | Some z => Ok (VInt z)
                       | None => Raise ValueError
                       end) column.

Section Numeric.

(** [pd.to_numeric] on a column. *)
Variable to_numeric : list value -> result (list value).

(** The lines are those the iteration over the open file yields. *)
Definition _load_demographic_information (lines : list string) : result (list Patient) :=
  let* patient_info := map_result demographic_line lines in
  let df := patient_info in
  let* column := patient_number_column df in
  let* numbers := to_numeric column in
  Ok (assign_patient_number df numbers).

End Numeric.

Record PatientDiagnosis : Type := {
  diagnosis_patient_number : Z;
  diagnosis_class : Z
}.

(** The rows are those [pd.read_csv] yields: a number and a name each.
    [Series.map] applies the conversion to the names in row order. *)
Definition _load_patient_diagnoses (rows : list (Z * string))
  : result (list PatientDiagnosis) :=
  let* classes := map_result Tools.convert_diagnosis_name_to_class (map snd rows) in
  Ok (zip_with (fun number label =>
                  {| diagnosis_patient_number := number; diagnosis_class := label |})
               (map fst rows) classes).

Section Merge.

Variable to_numeric : list value -> result (list value).

(** [pd.merge(left, right, left_on, right_on).set_index(join_field)] is
    opaque: the join of the two parsed tables. *)
Variable joined : Type.
Variable merge : list PatientDiagnosis -> list Patient -> result joined.

(** The lines of the demographic file and the rows of the diagnosis file
    are the input. *)
Definition load_patients (lines : list string) (rows : list (Z * string)) : result joined :=
  let* patient_demographics := _load_demographic_information to_numeric lines in
  let* patient_diagnoses := _load_patient_diagnoses rows in
  merge patient_diagnoses patient_demographics.

End Merge.

End Patients.

(** ** __init__.py *)

Definition convert_diagnosis_class_to_name (label : Z) : result string :=
  Tools.convert_diagnosis_class_to_name label.

Definition convert_diagnosis_name_to_class (diagnosis : string) : result Z :=
  Tools.convert_diagnosis_name_to_class diagnosis.

Definition get_diagnosis_names : list string := Tools.diagnosis_class_name_mapping.

Definition num_classes : Z := Z.of_nat (length get_diagnosis_names).

Section Cache.

(** The cached tables and their serialisation ([pickle]) are opaque. *)
Variable table : Type.
Variable pickle_dumps : table -> string.
Variable pickle_loads : string -> result table.

(** [pd.to_pickle(obj, path)] *)
Definition to_pickle (obj : table) (path : string) : Os.io unit :=
  Os.write_file path (pickle_dumps obj).

(** [pd.read_pickle(path)] *)
Definition read_pickle (path : string) : Os.io table :=
  do* content := Os.read_file path in
  Os.lift (pickle_loads content).

(** A loader works on the files and returns a table or raises. *)
Definition loader : Type := gmap string Os.node -> result table * gmap string Os.node.

(** [data_frame_loader()] *)
Definition call (data_frame_loader : loader) : Os.io table :=
  fun w =>
    let (r, fs) := data_frame_loader (Os.files w) in
    (r, {| Os.files := fs; Os.loader_calls := S (Os.loader_calls w) |}).

Definition load_data_frame_with_cache (data_frame_loader : loader) (cache_path : string)
  : Os.io table :=
  let cache_path_head := PosixPath.dirname cache_path in
  do* cached := Os.path_isfile cache_path in
  if cached then read_pickle cache_path
  else
    do* recording_data := call data_frame_loader in
    do* _ := Tools.create_path_if_nonexistent cache_path_head in
    do* _ := to_pickle recording_data cache_path in
    Os.ret recording_data.

(** The else branch on its own. *)
Definition compute_and_store (data_frame_loader : loader) (cache_path : string)
  : Os.io table :=
  do* recording_data := call data_frame_loader in
  do* _ := Tools.create_path_if_nonexistent (PosixPath.dirname cache_path) in
  do* _ := to_pickle recording_data cache_path in
  Os.ret recording_data.

(** [os.remove(_cache_path_recordings)]; the module-level path is the
    argument. *)
Definition empty_cache_recordings (_cache_path_recordings : string) : Os.io unit :=
  Os.remove _cache_path_recordings.

Definition empty_cache_patients (_cache_path_patients : string) : Os.io unit :=
  Os.remove _cache_path_patients.

(** What the module holds once it is imported. *)
Record package : Type := {
  _cache_path_recordings : string;
  _cache_path_patients : string;
  _recordings : table;
  _patients : table
}.

(** The four statements at the end of the module, in their order; [base]
    is the directory of the package and the two loaders are
    [_recordings.load_recordings] and [_patients.load_patients]. *)
Definition import_package (base : string) (load_recordings load_patients : loader)
  : Os.io package :=
  do* temp := Tools.get_temporary_dir base in
  let path_recordings := PosixPath.join temp "_all_recording_data.pkl" in
  do* temp := Tools.get_temporary_dir base in
  let path_patients := PosixPath.join temp "_all_patient_data.pkl" in
  do* recordings := load_data_frame_with_cache load_recordings path_recordings in
  do* patients := load_data_frame_with_cache load_patients path_patients in
  Os.ret {| _cache_path_recordings := path_recordings;
            _cache_path_patients := path_patients;
            _recordings := recordings;
            _patients := patients |}.

End Cache.

(** A small instance for the examples: a store with the root directory
    only, tables that are integers, and a loader that touches no file. *)
Module Example.

Definition root_only : gmap string Os.node := {[ "/" := Os.Dir ]}.

Definition dumps (t : Z) : string := if t =? 42 then "forty-two" else "other".

Definition loads (s : string) : result Z :=
  if String.eqb s "forty-two" then Ok 42 else Raise UnpicklingError.

Definition loader42 : loader Z := fun fs => (Ok 42, fs).

Definition decode (file_path : string) : result (string * Z) :=
  if PyStr.endswith file_path ".broken.wav" then Raise (LibraryError "librosa")
  else Ok ("samples", 22050).

End Example.

(** No regular file at the key. *)
Definition miss (fs : gmap string Os.node) (cache_path : string) : Prop :=
  forall content, Os.stat fs cache_path <> Some (Os.File content).

(** * Properties *)

(** ** Results *)

Lemma bind_ok {A B : Type} (m : result A) (k : A -> result B) (b : B) :
  bind m k = Ok b -> exists a, m = Ok a /\ k a = Ok b.
Proof. destruct m as [a|e]; simpl; [eauto | discriminate]. Qed.

Lemma assert_ok (c : bool) : assert c = Ok tt <-> c = true.
Proof. destruct c; simpl; split; congruence. Qed.

Lemma assert_raise (c : bool) (e : exn) : assert c = Raise e -> c = false /\ e = AssertionError.
Proof. destruct c; simpl; [discriminate | intros [= <-]; auto]. Qed.

(** ** Indexing and searching a list *)

(** Case analysis on the first integer comparison of the goal. *)
Ltac zcase :=
  match goal with
  | |- context [Z.ltb ?a ?b] => destruct (Z.ltb_spec a b)
  | |- context [Z.leb ?a ?b] => destruct (Z.leb_spec a b)
  end;
  cbv beta zeta iota; cbn [orb]; try lia.

(** The index is normalised first, then compared with the bounds. *)
Ltac getitem_cases i :=
  unfold Py.getitem;
  destruct (Z.ltb_spec i 0); cbv beta zeta iota; try lia;
  repeat zcase.

Section Sequences.

Context {A : Type}.
Implicit Types (l : list A) (i : Z).

Lemma getitem_lookup l (n : nat) (x : A) :
  l !! n = Some x -> Py.getitem l (Z.of_nat n) = Ok x.
Proof.
  intros Hx. pose proof (lookup_lt_Some _ _ _ Hx) as Hlt.
  getitem_cases (Z.of_nat n).
  rewrite Nat2Z.id, Hx. reflexivity.
Qed.

Lemma getitem_in_range l i :
  0 <= i < Z.of_nat (length l) ->
  exists x, Py.getitem l i = Ok x /\ l !! Z.to_nat i = Some x.
Proof.
  intros Hi.
  destruct (lookup_lt_is_Some_2 l (Z.to_nat i)) as [x Hx]; [lia|].
  exists x. split; [|exact Hx].
  rewrite <- (Z2Nat.id i) by lia. now apply getitem_lookup.
Qed.

Lemma getitem_negative l i :
  - Z.of_nat (length l) <= i < 0 ->
  Py.getitem l i = Py.getitem l (i + Z.of_nat (length l)).
Proof.
  intros Hi. getitem_cases i. reflexivity.
Qed.

Lemma getitem_out_of_range l i :
  i < - Z.of_nat (length l) \/ Z.of_nat (length l) <= i ->
  Py.getitem l i = Raise IndexError.
Proof.
  intros Hi. getitem_cases i; reflexivity.
Qed.

Lemma getitem_raises l i (e : exn) :
  Py.getitem l i = Raise e ->
  e = IndexError /\ (i < - Z.of_nat (length l) \/ Z.of_nat (length l) <= i).
Proof.
  intros Hr.
  destruct (Z_lt_ge_dec i (- Z.of_nat (length l))) as [?|Hlo];
    [rewrite getitem_out_of_range in Hr by lia; split; [congruence | lia]|].
  destruct (Z_lt_ge_dec i (Z.of_nat (length l))) as [Hhi|?];
    [|rewrite getitem_out_of_range in Hr by lia; split; [congruence | lia]].
  exfalso. destruct (Z_lt_ge_dec i 0) as [Hneg|Hpos].
  - rewrite getitem_negative in Hr by lia.
    destruct (getitem_in_range l (i + Z.of_nat (length l))) as (x & Hx & _); [lia|].
    congruence.
  - destruct (getitem_in_range l i) as (x & Hx & _); [lia|]. congruence.
Qed.

End Sequences.

Lemma index_from_not_in (x : string) (l : list string) (pos : Z) :
  ~ In x l -> Py.index_from x l pos = Raise ValueError.
Proof.
  revert pos. induction l as [|y l IH]; intros pos Hin; simpl; [reflexivity|].
  destruct (String.eqb_spec y x) as [->|_].
  - exfalso. apply Hin. now left.
  - apply IH. intros H. apply Hin. now right.
Qed.

Lemma index_from_in (x : string) (l : list string) (pos : Z) :
  In x l ->
  exists n : nat, Py.index_from x l pos = Ok (pos + Z.of_nat n) /\ l !! n = Some x.
Proof.
  revert pos. induction l as [|y l IH]; intros pos Hin; simpl; [destruct Hin|].
  destruct (String.eqb_spec y x) as [->|Hne].
  - exists 0%nat. split; [f_equal; lia | reflexivity].
  - destruct Hin as [Heq|Hin]; [congruence|].
    destruct (IH (pos + 1) Hin) as (n & Hn & Hl).
    exists (S n). split; [rewrite Hn; f_equal; lia | exact Hl].
Qed.

Lemma index_from_NoDup (x : string) (l : list string) (pos : Z) (n : nat) :
  NoDup l -> l !! n = Some x -> Py.index_from x l pos = Ok (pos + Z.of_nat n).
Proof.
  intros Hnd. revert pos n. induction Hnd as [|y l Hy Hnd IH]; intros pos n Hl.
  - discriminate.
  - simpl. destruct n as [|n]; simpl in Hl.
    + injection Hl as ->. rewrite String.eqb_refl. f_equal. lia.
    + destruct (String.eqb_spec y x) as [->|_].
      * exfalso. apply Hy. apply list_elem_of_lookup. eauto.
      * rewrite (IH (pos + 1) n Hl). f_equal. lia.
Qed.

Lemma index_raises (x : string) (l : list string) (pos : Z) (e : exn) :
  Py.index_from x l pos = Raise e -> e = ValueError /\ ~ In x l.
Proof.
  intros Hr. destruct (in_dec string_dec x l) as [Hin|Hout].
  - destruct (index_from_in x l pos Hin) as (n & Hn & _). congruence.
  - rewrite index_from_not_in in Hr by exact Hout. split; [congruence | exact Hout].
Qed.

(** ** The diagnosis codec *)

Lemma diagnosis_names_NoDup : NoDup Tools.diagnosis_class_name_mapping.
Proof.
  unfold Tools.diagnosis_class_name_mapping.
  repeat (apply NoDup_cons; split; [rewrite ?elem_of_cons, elem_of_nil; intuition discriminate|]).
  apply NoDup_nil_2.
Qed.

Lemma num_classes_eq : num_classes = 8.
Proof. reflexivity. Qed.

(** C3. The round-trip law: a class label in [0, K) converted to its name
    and back is the same label, and a name of the mapping converted to its
    label and back is the same name. *)
Theorem diagnosis_round_trip :
  (forall i : Z, 0 <= i < num_classes ->
     (let* name := convert_diagnosis_class_to_name i in
      convert_diagnosis_name_to_class name) = Ok i)
  /\ (forall x : string, In x get_diagnosis_names ->
     (let* label := convert_diagnosis_name_to_class x in
      convert_diagnosis_class_to_name label) = Ok x).
Proof.
  unfold convert_diagnosis_class_to_name, convert_diagnosis_name_to_class,
    Tools.convert_diagnosis_class_to_name, Tools.convert_diagnosis_name_to_class,
    num_classes, get_diagnosis_names.
  split.
  - intros i Hi.
    destruct (getitem_in_range Tools.diagnosis_class_name_mapping i Hi) as (name & Hget & Hl).
    rewrite Hget. simpl bind. unfold Py.index.
    rewrite (index_from_NoDup name _ 0 _ diagnosis_names_NoDup Hl).
    f_equal. lia.
  - intros x Hx.
    destruct (index_from_in x Tools.diagnosis_class_name_mapping 0 Hx) as (n & Hn & Hl).
    unfold Py.index. rewrite Hn. simpl bind.
    now apply getitem_lookup.
Qed.

Lemma diagnosis_round_trip_witness :
  (let* name := convert_diagnosis_class_to_name 4 in
   convert_diagnosis_name_to_class name) = Ok 4
  /\ (let* label := convert_diagnosis_name_to_class "LRTI" in
      convert_diagnosis_class_to_name label) = Ok "LRTI".
Proof.
  split.
  - apply (proj1 diagnosis_round_trip 4). rewrite num_classes_eq. lia.
  - apply (proj2 diagnosis_round_trip "LRTI"). simpl. tauto.
Defined.

Lemma class_to_name_in_range (label : Z) :
  0 <= label < num_classes ->
  exists name, convert_diagnosis_class_to_name label = Ok name
               /\ get_diagnosis_names !! Z.to_nat label = Some name.
Proof. intros H. now apply getitem_in_range. Qed.

(** C4, as the code has it. A label outside [-K, K) raises IndexError and
    no other label does: a label in [0, K) gives the name at that position,
    and a label in [-K, 0) counts from the end of the list, giving the
    name of label + K. *)
Theorem class_to_name_index_error (label : Z) :
  (convert_diagnosis_class_to_name label = Raise IndexError
   <-> label < - num_classes \/ num_classes <= label)
  /\ (0 <= label < num_classes ->
      exists name, convert_diagnosis_class_to_name label = Ok name
                   /\ get_diagnosis_names !! Z.to_nat label = Some name)
  /\ (- num_classes <= label < 0 ->
      convert_diagnosis_class_to_name label
      = convert_diagnosis_class_to_name (label + num_classes)).
Proof.
  split; [split|split].
  - intros Hr. now apply (getitem_raises _ _ _ Hr).
  - intros Hout. now apply getitem_out_of_range.
  - apply class_to_name_in_range.
  - intros Hneg. now apply getitem_negative.
Qed.

Lemma class_to_name_index_error_witness :
  convert_diagnosis_class_to_name 8 = Raise IndexError
  /\ (exists name, convert_diagnosis_class_to_name 2 = Ok name
                   /\ get_diagnosis_names !! Z.to_nat 2 = Some name)
  /\ convert_diagnosis_class_to_name (-3) = convert_diagnosis_class_to_name (-3 + num_classes).
Proof.
  split; [|split].
  - apply (proj1 (class_to_name_index_error 8)). rewrite num_classes_eq. lia.
  - apply (proj1 (proj2 (class_to_name_index_error 2))). rewrite num_classes_eq. lia.
  - apply (proj2 (proj2 (class_to_name_index_error (-3)))). rewrite num_classes_eq. lia.
Defined.

(** C4, as stated, fails at the label -1: it is not in [0, K), and the
    conversion returns the last name instead of raising. *)
Lemma class_to_name_minus_one :
  ~ (0 <= -1 < num_classes) /\ convert_diagnosis_class_to_name (-1) = Ok "URTI".
Proof. split; [lia | reflexivity]. Qed.

(** ** Comprehensions *)

Section MapResult.

Context {A B : Type} (f : A -> result B).

Lemma map_result_Ok (xs : list A) (ys : list B) :
  map_result f xs = Ok ys <-> Forall2 (fun x y => f x = Ok y) xs ys.
Proof.
  revert ys. induction xs as [|x xs IH]; intros ys; simpl.
  - split.
    + intros [= <-]. constructor.
    + intros H. inversion H. reflexivity.
  - split.
    + intros H. apply bind_ok in H as (y & Hy & H).
      apply bind_ok in H as (ys' & Hys & [= <-]).
      constructor; [exact Hy | now apply IH].
    + intros H. inversion H as [|? y ? ys' Hy Hys]; subst.
      rewrite Hy. simpl. apply IH in Hys. rewrite Hys. reflexivity.
Qed.

Lemma map_result_length (xs : list A) (ys : list B) :
  map_result f xs = Ok ys -> length ys = length xs.
Proof.
  intros H. apply map_result_Ok in H. symmetry. exact (Forall2_length _ _ _ H).
Qed.

(** The comprehension raises what the first failing element raises. *)
Lemma map_result_Raise (xs : list A) (e : exn) :
  map_result f xs = Raise e <->
  exists pre x post, xs = (pre ++ x :: post)%list
                     /\ Forall (fun y => is_ok (f y) = true) pre
                     /\ f x = Raise e.
Proof.
  induction xs as [|x xs IH]; simpl.
  - split; [discriminate|].
    intros (pre & y & post & H & _). destruct pre; discriminate.
  - split.
    + destruct (f x) as [y|e'] eqn:Hx; simpl.
      * destruct (map_result f xs) as [ys|e'] eqn:Hxs; simpl; [discriminate|].
        intros [= ->]. destruct (proj1 IH eq_refl) as (pre & z & post & -> & Hpre & Hz).
        exists (x :: pre), z, post. split; [reflexivity|]. split; [|exact Hz].
        constructor; [now rewrite Hx | exact Hpre].
      * intros [= ->]. exists [], x, xs. split; [reflexivity|]. split; [constructor | exact Hx].
    + intros (pre & z & post & Heq & Hpre & Hz).
      destruct pre as [|p pre]; simpl in Heq; injection Heq as -> ->.
      * rewrite Hz. reflexivity.
      * inversion Hpre as [|? ? Hp Hpre']; subst.
        destruct (f p) as [y|?]; [|discriminate]. simpl.
        rewrite (proj2 IH) by eauto 6. reflexivity.
Qed.

Lemma map_result_In_raises (xs : list A) :
  (exists x, In x xs /\ is_ok (f x) = false) ->
  exists x e, In x xs /\ f x = Raise e /\ map_result f xs = Raise e.
Proof.
  induction xs as [|x xs IH]; intros (z & Hin & Hz); [destruct Hin|].
  simpl. destruct (f x) as [y|e] eqn:Hx.
  - destruct Hin as [->|Hin]; [rewrite Hx in Hz; discriminate|].
    destruct IH as (x' & e & Hin' & Hx' & Hr); [eauto|].
    exists x', e. split; [now right|]. split; [exact Hx'|].
    simpl. rewrite Hr. reflexivity.
  - exists x, e. split; [now left|]. split; [exact Hx | reflexivity].
Qed.

Lemma map_result_all_ok (xs : list A) :
  Forall (fun x => is_ok (f x) = true) xs ->
  exists ys, map_result f xs = Ok ys.
Proof.
  induction 1 as [|x xs Hx _ [ys IH]]; simpl; [eauto|].
  destruct (f x) as [y|]; [|discriminate]. simpl. rewrite IH. simpl. eauto.
Qed.

End MapResult.

Lemma name_to_class_unknown (s : string) :
  ~ In s get_diagnosis_names -> convert_diagnosis_name_to_class s = Raise ValueError.
Proof. apply index_from_not_in. Qed.

Lemma name_to_class_known (s : string) :
  In s get_diagnosis_names -> is_ok (Tools.convert_diagnosis_name_to_class s) = true.
Proof.
  intros H. unfold get_diagnosis_names in H.
  destruct (index_from_in s _ 0 H) as (n & Hn & _).
  unfold Tools.convert_diagnosis_name_to_class, Py.index. now rewrite Hn.
Qed.

Lemma diagnosis_numbers_kept (numbers classes : list Z) :
  length numbers = length classes ->
  map Patients.diagnosis_patient_number
      (zip_with (fun number label =>
                   {| Patients.diagnosis_patient_number := number;
                      Patients.diagnosis_class := label |}) numbers classes)
  = numbers.
Proof.
  revert classes. induction numbers as [|n numbers IH]; intros [|c classes] Hlen;
    simpl in *; try discriminate; [reflexivity|].
  f_equal. apply IH. lia.
Qed.

(** C5. A string that is not one of the K names makes the conversion
    raise ValueError; a diagnosis table with such a name in some row makes
    the whole load raise ValueError, and a table of known names only is
    loaded with one row per input row. *)
Theorem unknown_diagnosis_name_fails :
  (forall s : string,
     ~ In s get_diagnosis_names -> convert_diagnosis_name_to_class s = Raise ValueError)
  /\ (forall rows : list (Z * string),
        (exists row, In row rows /\ ~ In (snd row) get_diagnosis_names) ->
        Patients._load_patient_diagnoses rows = Raise ValueError)
  /\ (forall rows : list (Z * string),
        Forall (fun row => In (snd row) get_diagnosis_names) rows ->
        exists table, Patients._load_patient_diagnoses rows = Ok table
                      /\ length table = length rows
                      /\ map Patients.diagnosis_patient_number table = map fst rows).
Proof.
  split; [exact name_to_class_unknown|]. split.
  - intros rows (row & Hin & Hbad). unfold Patients._load_patient_diagnoses.
    destruct (map_result_In_raises Tools.convert_diagnosis_name_to_class (map snd rows))
      as (s & e & _ & Hs & Hr).
    { exists (snd row). split; [now apply in_map|].
      pose proof (name_to_class_unknown _ Hbad) as Hr.
      unfold convert_diagnosis_name_to_class in Hr. now rewrite Hr. }
    apply index_raises in Hs as [-> _]. now rewrite Hr.
  - intros rows Hall. unfold Patients._load_patient_diagnoses.
    destruct (map_result_all_ok Tools.convert_diagnosis_name_to_class (map snd rows))
      as [classes Hc].
    { apply Forall_map. eapply Forall_impl; [exact Hall|].
      intros row Hrow. now apply name_to_class_known. }
    rewrite Hc. simpl. eexists. split; [reflexivity|].
    apply map_result_length in Hc. rewrite length_map in Hc.
    split.
    + rewrite length_zip_with, length_map. lia.
    + apply diagnosis_numbers_kept. now rewrite length_map.
Qed.

Lemma unknown_diagnosis_name_fails_witness :
  convert_diagnosis_name_to_class "copd" = Raise ValueError
  /\ Patients._load_patient_diagnoses [(101, "URTI"); (102, "Flu"); (103, "COPD")]
     = Raise ValueError
  /\ exists table, Patients._load_patient_diagnoses [(101, "URTI"); (103, "COPD")] = Ok table
                   /\ length table = 2%nat
                   /\ map Patients.diagnosis_patient_number table = [101; 103].
Proof.
  split; [|split].
  - apply (proj1 unknown_diagnosis_name_fails "copd").
    simpl. intuition discriminate.
  - apply (proj1 (proj2 unknown_diagnosis_name_fails)).
    exists (102, "Flu"). split; [simpl; tauto | simpl; intuition discriminate].
  - apply (proj2 (proj2 unknown_diagnosis_name_fails) [(101, "URTI"); (103, "COPD")]).
    repeat constructor; simpl; tauto.
Defined.

(** ** Splitting and joining *)

Lemma split_by_not_nil (sep : ascii -> bool) (s : string) : PyStr.split_by sep s <> [].
Proof.
  destruct s as [|c s]; simpl; [discriminate|].
  destruct (sep c); [discriminate|]. destruct (PyStr.split_by sep s); discriminate.
Qed.

Lemma join_cons (sep w : string) (ws : list string) :
  ws <> [] -> PyStr.join sep (w :: ws) = w ++ sep ++ PyStr.join sep ws.
Proof. destruct ws; [congruence | reflexivity]. Qed.

Lemma string_app_nil (s : string) : EmptyString ++ s = s.
Proof. reflexivity. Qed.

Lemma string_app_cons (a : ascii) (s t : string) : String a s ++ t = String a (s ++ t).
Proof. reflexivity. Qed.

Lemma string_app_assoc (a b c : string) : (a ++ b) ++ c = a ++ (b ++ c).
Proof.
  induction a as [|x a IH]; [reflexivity|].
  rewrite !string_app_cons. now rewrite IH.
Qed.

Lemma join_snoc (sep x : string) (ws : list string) :
  ws <> [] -> PyStr.join sep (ws ++ [x])%list = PyStr.join sep ws ++ sep ++ x.
Proof.
  induction ws as [|w ws IH]; intros Hne; [congruence|].
  destruct ws as [|w' ws]; [reflexivity|].
  change ((w :: w' :: ws) ++ [x])%list with (w :: ((w' :: ws) ++ [x]))%list.
  rewrite join_cons by (simpl; discriminate).
  rewrite IH by discriminate.
  rewrite (join_cons sep w (w' :: ws)) by discriminate.
  now rewrite !string_app_assoc.
Qed.

(** Joining the pieces with the separator gives the string back. *)
Lemma join_split (c : ascii) (s : string) :
  PyStr.join (String c EmptyString) (PyStr.split c s) = s.
Proof.
  unfold PyStr.split. induction s as [|a s IH]; [reflexivity|].
  simpl PyStr.split_by. destruct (Ascii.eqb_spec c a) as [->|Hne].
  - rewrite join_cons by apply split_by_not_nil.
    rewrite string_app_nil, string_app_cons, string_app_nil. now rewrite IH.
  - pose proof (split_by_not_nil (Ascii.eqb c) s) as Hnil.
    destruct (PyStr.split_by (Ascii.eqb c) s) as [|w ws]; [congruence|].
    destruct ws as [|w' ws]; [simpl in *; now rewrite IH|].
    rewrite join_cons in * by discriminate.
    rewrite string_app_cons. now rewrite IH.
Qed.

(** No piece contains the separator. *)
Lemma split_pieces (c : ascii) (s : string) :
  Forall (fun w => PyStr.contains c w = false) (PyStr.split c s).
Proof.
  unfold PyStr.split. induction s as [|a s IH]; simpl; [repeat constructor|].
  destruct (Ascii.eqb_spec c a) as [->|Hne]; [constructor; [reflexivity | exact IH]|].
  destruct (PyStr.split_by (Ascii.eqb c) s) as [|w ws]; [repeat constructor; simpl|].
  - destruct (Ascii.eqb_spec c a); [congruence | reflexivity].
  - inversion IH; subst. constructor; [|assumption]. simpl.
    destruct (Ascii.eqb_spec c a); [congruence | assumption].
Qed.

(** A string without the separator is one piece; one with it is at least two. *)
Lemma split_without (c : ascii) (s : string) :
  PyStr.contains c s = false -> PyStr.split c s = [s].
Proof.
  unfold PyStr.split. induction s as [|a s IH]; simpl; [reflexivity|].
  destruct (Ascii.eqb c a); simpl; [discriminate|].
  intros H. now rewrite (IH H).
Qed.

Lemma split_with (c : ascii) (s : string) :
  PyStr.contains c s = true -> (2 <= length (PyStr.split c s))%nat.
Proof.
  unfold PyStr.split. induction s as [|a s IH]; simpl; [discriminate|].
  destruct (Ascii.eqb c a); simpl.
  - intros _. pose proof (split_by_not_nil (Ascii.eqb c) s).
    destruct (PyStr.split_by (Ascii.eqb c) s); [congruence | simpl; lia].
  - intros H. specialize (IH H).
    destruct (PyStr.split_by (Ascii.eqb c) s); simpl in *; lia.
Qed.

(** ** posixpath.split *)

Lemma cut_app (p : string) : p = fst (PosixPath.cut p) ++ snd (PosixPath.cut p).
Proof.
  induction p as [|c p IH]; [reflexivity|].
  simpl. destruct (PosixPath.cut p) as [h t]. simpl in IH.
  destruct (Ascii.eqb c "/" || negb (PyStr.is_empty h)) eqn:E; simpl.
  - rewrite string_app_cons. now rewrite <- IH.
  - apply orb_false_iff in E as [_ E]. destruct h; [|discriminate].
    rewrite string_app_nil in *. now rewrite <- IH.
Qed.

Lemma cut_cons (c : ascii) (p : string) :
  PosixPath.cut (String c p)
  = if Ascii.eqb c "/" || negb (PyStr.is_empty (fst (PosixPath.cut p)))
    then (String c (fst (PosixPath.cut p)), snd (PosixPath.cut p))
    else (EmptyString, String c (snd (PosixPath.cut p))).
Proof. simpl PosixPath.cut at 1. now destruct (PosixPath.cut p). Qed.

Lemma contains_cons (c a : ascii) (s : string) :
  PyStr.contains c (String a s) = Ascii.eqb c a || PyStr.contains c s.
Proof. reflexivity. Qed.

Lemma cut_tail (p : string) : PyStr.contains "/" (snd (PosixPath.cut p)) = false.
Proof.
  induction p as [|c p IH]; [reflexivity|].
  rewrite cut_cons.
  destruct (Ascii.eqb c "/" || negb (PyStr.is_empty (fst (PosixPath.cut p)))) eqn:E.
  - exact IH.
  - apply orb_false_iff in E as [E _].
    cbn [snd]. rewrite contains_cons, IH, Ascii.eqb_sym, E. reflexivity.
Qed.

Lemma split_tail (p : string) : snd (PosixPath.split p) = snd (PosixPath.cut p).
Proof. unfold PosixPath.split. now destruct (PosixPath.cut p). Qed.

Lemma cut_head (p : string) :
  fst (PosixPath.cut p) = "" \/ exists h, fst (PosixPath.cut p) = h ++ "/".
Proof.
  induction p as [|c p IH]; [now left|].
  rewrite cut_cons.
  destruct (Ascii.eqb_spec c "/") as [->|Hne]; cbn [orb].
  - right. cbn [fst]. destruct IH as [->|[h ->]].
    + now exists "".
    + exists (String "/" h). now rewrite string_app_cons.
  - destruct IH as [E|[h E]]; rewrite E.
    + left. reflexivity.
    + right. exists (String c h). destruct h; reflexivity.
Qed.

(** ** Stem extraction *)

Lemma stem_extraction_eq (file_path : string) :
  Recordings._extract_file_name_without_extension_from_path file_path
  = let parts := PyStr.split "." (snd (PosixPath.split file_path)) in
    if (2 <=? length parts)%nat
    then Ok (PyStr.join "." (removelast parts))
    else Raise AssertionError.
Proof.
  unfold Recordings._extract_file_name_without_extension_from_path.
  destruct (PosixPath.split file_path) as [head file_name]. cbn [snd].
  destruct (String.eqb_spec file_name "") as [->|Hne]; [reflexivity|].
  cbn [negb assert bind]. cbv zeta.
  destruct (Nat.leb_spec 2 (length (PyStr.split "." file_name))) as [Hlen|Hlen].
  - rewrite (proj2 (Z.leb_le 2 _)) by lia. reflexivity.
  - rewrite (proj2 (Z.leb_gt 2 _)) by lia. reflexivity.
Qed.

(** C7. The stem is cut out of the last path component: the part of the
    path after its last slash.  That component is split on the dot; fewer
    than two parts (a name without a dot) fail the assertion, otherwise
    all parts but the last are joined with dots again, which is the name
    without its final dot and extension. *)
Theorem stem_extraction (file_path : string) :
  let file_name := snd (PosixPath.split file_path) in
  let parts := PyStr.split "." file_name in
  (exists head, file_path = head ++ file_name /\ (head = "" \/ exists h, head = h ++ "/"))
  /\ PyStr.contains "/" file_name = false
  /\ ((length parts < 2)%nat ->
      Recordings._extract_file_name_without_extension_from_path file_path
      = Raise AssertionError)
  /\ ((2 <= length parts)%nat ->
      Recordings._extract_file_name_without_extension_from_path file_path
      = Ok (PyStr.join "." (removelast parts)))
  /\ (PyStr.contains "." file_name = false ->
      Recordings._extract_file_name_without_extension_from_path file_path
      = Raise AssertionError)
  /\ (forall stem,
        Recordings._extract_file_name_without_extension_from_path file_path = Ok stem ->
        exists extension, file_name = stem ++ "." ++ extension
                          /\ PyStr.contains "." extension = false)
  /\ Recordings._extract_file_name_without_extension_from_path "101_1b1_Al_sc_Meditron.wav"
     = Ok "101_1b1_Al_sc_Meditron".
Proof.
  intros file_name parts.
  assert (Hname : file_name = snd (PosixPath.cut file_path)) by apply split_tail.
  pose proof (stem_extraction_eq file_path) as Heq. cbv zeta in Heq.
  fold file_name in Heq. fold parts in Heq.
  repeat split.
  - exists (fst (PosixPath.cut file_path)). split; [|apply cut_head].
    rewrite Hname. apply cut_app.
  - rewrite Hname. apply cut_tail.
  - intros Hlen. rewrite Heq. now rewrite (proj2 (Nat.leb_gt 2 _)) by lia.
  - intros Hlen. rewrite Heq. now rewrite (proj2 (Nat.leb_le 2 _)) by lia.
  - intros Hdot. rewrite Heq. unfold parts. now rewrite (split_without _ _ Hdot).
  - intros stem Hstem. rewrite Heq in Hstem.
    destruct (Nat.leb_spec 2 (length parts)) as [Hlen|Hlen]; [|discriminate].
    injection Hstem as <-.
    assert (Hnil : parts <> []) by (intros E; rewrite E in Hlen; simpl in Hlen; lia).
    exists (List.last parts "").
    pose proof (app_removelast_last "" Hnil) as Hparts.
    split.
    + rewrite <- (join_split "." file_name). fold parts.
      rewrite Hparts at 1. apply join_snoc.
      intros E. rewrite E in Hparts. rewrite Hparts in Hlen. simpl in Hlen. lia.
    + pose proof (split_pieces "." file_name) as Hpieces. fold parts in Hpieces.
      rewrite Forall_forall in Hpieces. apply Hpieces.
      apply list_elem_of_In. rewrite Hparts at 2. apply in_or_app. right. now left.
Qed.

Lemma stem_extraction_witness :
  Recordings._extract_file_name_without_extension_from_path "/data/101_1b1_Al_sc_Meditron"
  = Raise AssertionError
  /\ Recordings._extract_file_name_without_extension_from_path "/data/a.b.wav" = Ok "a.b".
Proof.
  split.
  - apply (proj1 (proj2 (proj2 (stem_extraction "/data/101_1b1_Al_sc_Meditron")))).
    vm_compute. lia.
  - apply (proj1 (proj2 (proj2 (proj2 (stem_extraction "/data/a.b.wav"))))).
    vm_compute. lia.
Defined.

(** ** The metadata parser *)

Section MetaInfo.

Import Py Recordings.

Variable file_name : string.

Let fields : list string := PyStr.split "_" file_name.

(** Five fields: the mode field becomes 1 for the token sc and 2 for
    every other token, and the first field goes through [int]. *)
Lemma meta_info_five (a b c d e : string) :
  fields = [a; b; c; d; e] ->
  _extract_meta_info_from_file_name file_name
  = let* number := PyStr.int a in
    Ok {| patient_number := VInt number;
          recording_index := VStr b;
          chest_location := VStr c;
          num_channels := VInt (if String.eqb d "sc" then 1 else 2);
          recording_equipment := VStr e |}.
Proof.
  unfold fields, _extract_meta_info_from_file_name. intros ->.
  reflexivity.
Qed.

(** Fewer than four fields: reading the fourth one raises. *)
Lemma meta_info_short :
  (length fields < 4)%nat ->
  getitem (map VStr fields) 3 = Raise IndexError
  /\ _extract_meta_info_from_file_name file_name = Raise IndexError.
Proof.
  intros Hlen.
  assert (Hget : getitem (map VStr fields) 3 = Raise IndexError).
  { apply getitem_out_of_range. rewrite length_map. lia. }
  split; [exact Hget|].
  unfold _extract_meta_info_from_file_name. fold fields. now rewrite Hget.
Qed.

(** Four fields, or more than five: the assertion on the count fails. *)
Lemma meta_info_wrong_count :
  (4 <= length fields)%nat -> length fields <> 5%nat ->
  _extract_meta_info_from_file_name file_name = Raise AssertionError.
Proof.
  intros Hlen Hne.
  destruct (getitem_in_range (map VStr fields) 3) as (mode & Hget & _);
    [rewrite length_map; lia|].
  unfold _extract_meta_info_from_file_name. fold fields. rewrite Hget.
  cbn [bind]. rewrite length_insert, length_map.
  rewrite (proj2 (Z.eqb_neq _ 5)) by lia. reflexivity.
Qed.

End MetaInfo.

Lemma length_five {A : Type} (l : list A) :
  length l = 5%nat -> exists a b c d e, l = [a; b; c; d; e].
Proof.
  destruct l as [|a [|b [|c [|d [|e [|f l]]]]]]; simpl; try discriminate.
  intros _. now exists a, b, c, d, e.
Qed.

(** C6. The documented example: the five fields of the name, the first
    one as an int and the mode sc as 1; with mc in its place, 2. *)
Theorem meta_info_examples :
  Recordings._extract_meta_info_from_file_name "101_1b1_Al_sc_Meditron"
  = Ok {| Recordings.patient_number := Py.VInt 101;
          Recordings.recording_index := Py.VStr "1b1";
          Recordings.chest_location := Py.VStr "Al";
          Recordings.num_channels := Py.VInt 1;
          Recordings.recording_equipment := Py.VStr "Meditron" |}
  /\ Recordings._extract_meta_info_from_file_name "101_1b1_Al_mc_Meditron"
     = Ok {| Recordings.patient_number := Py.VInt 101;
             Recordings.recording_index := Py.VStr "1b1";
             Recordings.chest_location := Py.VStr "Al";
             Recordings.num_channels := Py.VInt 2;
             Recordings.recording_equipment := Py.VStr "Meditron" |}.
Proof. split; reflexivity. Qed.

(** C2, as the code has it. The parser fails exactly when the split on
    the underscore gives a field count other than 5 or the first field is
    not an integer literal: IndexError below four fields, AssertionError
    for four or for more than five, ValueError for the first field.  The
    mode field is not checked: with five fields and a numeric first one the
    parser returns, with 1 channel for the token sc and 2 for any other. *)
Theorem meta_info_failure (file_name : string) :
  let fields := PyStr.split "_" file_name in
  (is_ok (Recordings._extract_meta_info_from_file_name file_name) = false
   <-> length fields <> 5%nat
       \/ exists a, fields !! 0%nat = Some a /\ PyStr.int_literal a = None)
  /\ ((length fields < 4)%nat ->
      Recordings._extract_meta_info_from_file_name file_name = Raise IndexError)
  /\ ((4 <= length fields)%nat -> length fields <> 5%nat ->
      Recordings._extract_meta_info_from_file_name file_name = Raise AssertionError)
  /\ (forall a b c d e, fields = [a; b; c; d; e] -> PyStr.int_literal a = None ->
      Recordings._extract_meta_info_from_file_name file_name = Raise ValueError)
  /\ (forall a b c d e number,
        fields = [a; b; c; d; e] -> PyStr.int_literal a = Some number ->
        Recordings._extract_meta_info_from_file_name file_name
        = Ok {| Recordings.patient_number := Py.VInt number;
                Recordings.recording_index := Py.VStr b;
                Recordings.chest_location := Py.VStr c;
                Recordings.num_channels := Py.VInt (if String.eqb d "sc" then 1 else 2);
                Recordings.recording_equipment := Py.VStr e |}).
Proof.
  intros fields.
  assert (Hshort : (length fields < 4)%nat ->
            Recordings._extract_meta_info_from_file_name file_name = Raise IndexError)
    by (intros H; apply (meta_info_short file_name H)).
  assert (Hcount : (4 <= length fields)%nat -> length fields <> 5%nat ->
            Recordings._extract_meta_info_from_file_name file_name = Raise AssertionError)
    by apply meta_info_wrong_count.
  assert (Hbad : forall a b c d e, fields = [a; b; c; d; e] -> PyStr.int_literal a = None ->
            Recordings._extract_meta_info_from_file_name file_name = Raise ValueError).
  { intros a b c d e Hf Ha. rewrite (meta_info_five file_name a b c d e Hf).
    unfold PyStr.int. now rewrite Ha. }
  assert (Hgood : forall a b c d e number,
            fields = [a; b; c; d; e] -> PyStr.int_literal a = Some number ->
            Recordings._extract_meta_info_from_file_name file_name
            = Ok {| Recordings.patient_number := Py.VInt number;
                    Recordings.recording_index := Py.VStr b;
                    Recordings.chest_location := Py.VStr c;
                    Recordings.num_channels := Py.VInt (if String.eqb d "sc" then 1 else 2);
                    Recordings.recording_equipment := Py.VStr e |}).
  { intros a b c d e number Hf Ha. rewrite (meta_info_five file_name a b c d e Hf).
    unfold PyStr.int. now rewrite Ha. }
  assert (Hne : length fields <> 5%nat ->
            is_ok (Recordings._extract_meta_info_from_file_name file_name) = false).
  { intros H. destruct (Nat.lt_ge_cases (length fields) 4%nat) as [Hlt|Hge].
    - now rewrite Hshort.
    - now rewrite Hcount. }
  split; [|repeat split; assumption].
  split.
  - intros Hfail. destruct (Nat.eq_dec (length fields) 5%nat) as [Hlen|Hlen]; [|now left].
    right. destruct (length_five _ Hlen) as (a & b & c & d & e & Hf).
    exists a. split; [now rewrite Hf|].
    destruct (PyStr.int_literal a) as [number|] eqn:Ha; [|reflexivity].
    rewrite (Hgood a b c d e number Hf Ha) in Hfail. discriminate.
  - intros [Hlen|(a & Hlook & Ha)]; [now apply Hne|].
    destruct (Nat.eq_dec (length fields) 5%nat) as [Hlen|Hlen]; [|now apply Hne].
    destruct (length_five _ Hlen) as (a' & b & c & d & e & Hf).
    rewrite Hf in Hlook. injection Hlook as ->.
    now rewrite (Hbad a b c d e Hf Ha).
Qed.

Lemma meta_info_failure_witness :
  Recordings._extract_meta_info_from_file_name "101_1b1_Al" = Raise IndexError
  /\ Recordings._extract_meta_info_from_file_name "101_1b1_Al_sc" = Raise AssertionError
  /\ Recordings._extract_meta_info_from_file_name "p101_1b1_Al_sc_Meditron" = Raise ValueError
  /\ Recordings._extract_meta_info_from_file_name "7_1b1_Al_stereo_Meditron"
     = Ok {| Recordings.patient_number := Py.VInt 7;
             Recordings.recording_index := Py.VStr "1b1";
             Recordings.chest_location := Py.VStr "Al";
             Recordings.num_channels := Py.VInt 2;
             Recordings.recording_equipment := Py.VStr "Meditron" |}.
Proof.
  split; [|split; [|split]].
  - apply (proj1 (proj2 (meta_info_failure "101_1b1_Al"))). vm_compute. lia.
  - apply (proj1 (proj2 (proj2 (meta_info_failure "101_1b1_Al_sc")))); vm_compute; lia.
  - apply (proj1 (proj2 (proj2 (proj2 (meta_info_failure "p101_1b1_Al_sc_Meditron"))))
             "p101" "1b1" "Al" "sc" "Meditron"); reflexivity.
  - apply (proj2 (proj2 (proj2 (proj2 (meta_info_failure "7_1b1_Al_stereo_Meditron"))))
             "7" "1b1" "Al" "stereo" "Meditron" 7); reflexivity.
Defined.

(** C2, as stated, fails at a name whose mode token is neither sc nor mc:
    the name has five fields, the fourth is xx, and the parser returns a
    record with 2 channels instead of failing. *)
Lemma meta_info_unknown_mode_accepted :
  PyStr.split "_" "101_1b1_Al_xx_Meditron" = ["101"; "1b1"; "Al"; "xx"; "Meditron"]
  /\ Recordings._extract_meta_info_from_file_name "101_1b1_Al_xx_Meditron"
     = Ok {| Recordings.patient_number := Py.VInt 101;
             Recordings.recording_index := Py.VStr "1b1";
             Recordings.chest_location := Py.VStr "Al";
             Recordings.num_channels := Py.VInt 2;
             Recordings.recording_equipment := Py.VStr "Meditron" |}.
Proof. split; reflexivity. Qed.

(** C10. The fourth field is read before the count is asserted: a name
    that splits into fewer than four fields makes that read raise
    IndexError, and the parser raises it, not the AssertionError of the
    count check. *)
Theorem meta_info_short_name (file_name : string) :
  let fields := PyStr.split "_" file_name in
  (length fields < 4)%nat ->
  Py.getitem (map Py.VStr fields) 3 = Raise IndexError
  /\ Recordings._extract_meta_info_from_file_name file_name = Raise IndexError
  /\ Recordings._extract_meta_info_from_file_name file_name <> Raise AssertionError.
Proof.
  intros fields Hlen. destruct (meta_info_short file_name Hlen) as [Hget Hr].
  split; [exact Hget|]. split; [exact Hr|]. rewrite Hr. discriminate.
Qed.

Lemma meta_info_short_name_witness :
  Py.getitem (map Py.VStr (PyStr.split "_" "101_1b1")) 3 = Raise IndexError
  /\ Recordings._extract_meta_info_from_file_name "101_1b1" = Raise IndexError
  /\ Recordings._extract_meta_info_from_file_name "101_1b1" <> Raise AssertionError.
Proof. apply (meta_info_short_name "101_1b1"). vm_compute. lia. Defined.

(** ** Splitting on whitespace *)

Lemma split_by_cons_sep (sep : ascii -> bool) (c : ascii) (s : string) :
  sep c = true -> PyStr.split_by sep (String c s) = EmptyString :: PyStr.split_by sep s.
Proof. intros H. simpl. now rewrite H. Qed.

Lemma split_by_cons_other (sep : ascii -> bool) (c : ascii) (s w : string)
  (ws : list string) :
  sep c = false -> PyStr.split_by sep s = w :: ws ->
  PyStr.split_by sep (String c s) = String c w :: ws.
Proof. intros H Hs. simpl. now rewrite H, Hs. Qed.

Lemma split_whitespace_lstrip (s : string) :
  PyStr.split_whitespace (PyStr.lstrip_by PyStr.isspace s) = PyStr.split_whitespace s.
Proof.
  induction s as [|c s IH]; [reflexivity|].
  cbn [PyStr.lstrip_by]. destruct (PyStr.isspace c) eqn:Hc; [|reflexivity].
  rewrite IH. unfold PyStr.split_whitespace.
  now rewrite (split_by_cons_sep _ _ _ Hc).
Qed.

(** Every blank stripped from the right end is one empty piece less. *)
Lemma split_by_rstrip (s : string) :
  exists k : nat,
    PyStr.split_by PyStr.isspace s
    = (PyStr.split_by PyStr.isspace (PyStr.rstrip_by PyStr.isspace s)
       ++ replicate k EmptyString)%list.
Proof.
  induction s as [|c s [k IH]]; [now exists 0%nat|].
  cbn [PyStr.rstrip_by].
  destruct (PyStr.isspace c) eqn:Hc.
  - rewrite (split_by_cons_sep _ _ _ Hc).
    destruct (PyStr.rstrip_by PyStr.isspace s) as [|c' r] eqn:Hr; cbn [andb PyStr.is_empty].
    + exists (S k). rewrite IH. reflexivity.
    + exists k. rewrite (split_by_cons_sep _ _ _ Hc), IH. reflexivity.
  - cbn [andb]. exists k.
    pose proof (split_by_not_nil PyStr.isspace (PyStr.rstrip_by PyStr.isspace s)) as Hnil.
    destruct (PyStr.split_by PyStr.isspace (PyStr.rstrip_by PyStr.isspace s))
      as [|w ws] eqn:Hw; [congruence|].
    rewrite (split_by_cons_other _ _ _ _ _ Hc Hw).
    now rewrite (split_by_cons_other _ _ _ w (ws ++ replicate k EmptyString)%list Hc IH).
Qed.

Lemma split_whitespace_rstrip (s : string) :
  PyStr.split_whitespace (PyStr.rstrip_by PyStr.isspace s) = PyStr.split_whitespace s.
Proof.
  destruct (split_by_rstrip s) as [k Hk]. unfold PyStr.split_whitespace.
  rewrite Hk, filter_app.
  assert (Hrep : filter (fun w => PyStr.is_empty w = false) (replicate k EmptyString) = []).
  { clear Hk. induction k as [|k IH]; [reflexivity | exact IH]. }
  rewrite Hrep. now rewrite app_nil_r.
Qed.

(** Stripping the line first does not change its fields. *)
Lemma strip_split (line : string) :
  PyStr.split_whitespace (PyStr.strip line) = PyStr.split_whitespace line.
Proof.
  unfold PyStr.strip. now rewrite split_whitespace_rstrip, split_whitespace_lstrip.
Qed.

(** ** The demographic parser *)

Lemma length_six {A : Type} (l : list A) :
  length l = 6%nat -> exists a b c d e f, l = [a; b; c; d; e; f].
Proof.
  destruct l as [|a [|b [|c [|d [|e [|f [|g l]]]]]]]; simpl; try discriminate.
  intros _. now exists a, b, c, d, e, f.
Qed.

Lemma demographic_line_six (line a b c d e f : string) :
  PyStr.split_whitespace line = [a; b; c; d; e; f] ->
  Patients.demographic_line line
  = Ok {| Patients.patient_number := Py.VStr a; Patients.age := Py.VStr b;
          Patients.sex := Py.VStr c; Patients.adult_bmi := Py.VStr d;
          Patients.child_weight := Py.VStr e; Patients.child_height := Py.VStr f |}.
Proof. unfold Patients.demographic_line. rewrite strip_split. intros ->. reflexivity. Qed.

Lemma demographic_line_wrong_count (line : string) :
  length (PyStr.split_whitespace line) <> 6%nat ->
  Patients.demographic_line line = Raise AssertionError.
Proof.
  intros Hlen. unfold Patients.demographic_line. rewrite strip_split. cbv zeta.
  rewrite (proj2 (Z.eqb_neq _ 6)) by lia. reflexivity.
Qed.

Lemma demographic_line_cases (line : string) :
  (length (PyStr.split_whitespace line) <> 6%nat
   /\ Patients.demographic_line line = Raise AssertionError)
  \/ (exists a b c d e f,
        PyStr.split_whitespace line = [a; b; c; d; e; f]
        /\ Patients.demographic_line line
           = Ok {| Patients.patient_number := Py.VStr a; Patients.age := Py.VStr b;
                   Patients.sex := Py.VStr c; Patients.adult_bmi := Py.VStr d;
                   Patients.child_weight := Py.VStr e; Patients.child_height := Py.VStr f |}).
Proof.
  destruct (Nat.eq_dec (length (PyStr.split_whitespace line)) 6%nat) as [H|H].
  - right. destruct (length_six _ H) as (a & b & c & d & e & f & Hf).
    exists a, b, c, d, e, f. split; [exact Hf | now apply demographic_line_six].
  - left. split; [exact H | now apply demographic_line_wrong_count].
Qed.

(** Assigning the column changes the patient numbers only. *)
Lemma assign_patient_number_others (df : list Patients.Patient) (column : list Py.value) :
  Forall2 (fun p q => Patients.age q = Patients.age p
                      /\ Patients.sex q = Patients.sex p
                      /\ Patients.adult_bmi q = Patients.adult_bmi p
                      /\ Patients.child_weight q = Patients.child_weight p
                      /\ Patients.child_height q = Patients.child_height p)
          df (Patients.assign_patient_number df column).
Proof.
  revert column. induction df as [|p df IH]; intros column; [constructor|].
  destruct column as [|v column]; simpl.
  - apply Forall2_same_length_lookup_2; [reflexivity|].
    intros i x y Hx Hy. rewrite Hx in Hy. injection Hy as ->. tauto.
  - constructor; [simpl; tauto | apply IH].
Qed.

Lemma assign_patient_number_column (df : list Patients.Patient) (column : list Py.value) :
  length column = length df ->
  map Patients.patient_number (Patients.assign_patient_number df column) = column.
Proof.
  revert column. induction df as [|p df IH]; intros [|v column] Hlen;
    simpl in *; try discriminate; [reflexivity|].
  f_equal. apply IH. lia.
Qed.

Lemma to_numeric_integers_reads (column : list Py.value) (numbers : list Z) :
  map Patients.int64_cell column = map Some numbers ->
  Patients.to_numeric_integers column = Ok (map Py.VInt numbers).
Proof.
  intros H. apply map_result_Ok.
  revert numbers H. induction column as [|v column IH]; intros [|z numbers] H;
    simpl in *; try discriminate; constructor.
  - injection H as Hv _. now rewrite Hv.
  - injection H as _ H. now apply IH.
Qed.

Lemma Forall2_compose {A B C : Type} (R : A -> B -> Prop) (S : B -> C -> Prop)
  (T : A -> C -> Prop) (xs : list A) (ys : list B) (zs : list C) :
  (forall x y z, R x y -> S y z -> T x z) ->
  Forall2 R xs ys -> Forall2 S ys zs -> Forall2 T xs zs.
Proof.
  intros HT Hxy. revert zs. induction Hxy as [|x y xs ys Hx _ IH]; intros zs Hyz.
  - inversion Hyz. constructor.
  - inversion Hyz as [|? z ? zs' Hy Hyz']; subst. constructor; eauto.
Qed.

Section Demographics.

Import Py Patients.

Variable to_numeric : list value -> result (list value).

(** What is assumed of [pd.to_numeric]: a column of integer cells is
    read as those integers. *)
Hypothesis to_numeric_reads_integers :
  forall (column : list value) (numbers : list Z),
    map int64_cell column = map Some numbers ->
    to_numeric column = Ok (map VInt numbers).

Lemma demographic_rows (lines : list string) (patient_info : list Patient) :
  map_result demographic_line lines = Ok patient_info ->
  Forall2 (fun line p =>
             exists a b c d e f,
               PyStr.split_whitespace line = [a; b; c; d; e; f]
               /\ p = {| patient_number := VStr a; age := VStr b; sex := VStr c;
                         adult_bmi := VStr d; child_weight := VStr e;
                         child_height := VStr f |})
          lines patient_info.
Proof.
  intros H. apply map_result_Ok in H.
  eapply Forall2_impl; [exact H|]. intros line p Hp. simpl in Hp.
  destruct (demographic_line_cases line) as [[_ Hr]|(a & b & c & d & e & f & Hf & Hr)];
    rewrite Hr in Hp; [discriminate|].
  injection Hp as <-. now exists a, b, c, d, e, f.
Qed.

(** A file without lines: the frame has no column to convert. *)
Lemma demographic_empty_file :
  _load_demographic_information to_numeric [] = Raise KeyError.
Proof. reflexivity. Qed.

(** C8. Every line is split on whitespace.  A line whose field count is
    not 6 fails the assertion.  A returned table has one record per line,
    in the order of the lines, whose last five fields are the last five
    pieces of the line; when the first piece of every line is an integer
    numeral, a table is returned for a file of at least one line and its
    patient numbers are those integers.  The documented line parses to
    patient number 101. *)
Theorem demographic_parser (lines : list string) :
  ((exists line, In line lines
                 /\ length (PyStr.split_whitespace line) <> 6%nat) ->
   _load_demographic_information to_numeric lines = Raise AssertionError)
  /\ (forall table,
        _load_demographic_information to_numeric lines = Ok table ->
        length table = length lines
        /\ Forall2 (fun line p =>
                      exists a b c d e f,
                        PyStr.split_whitespace line = [a; b; c; d; e; f]
                        /\ age p = VStr b /\ sex p = VStr c /\ adult_bmi p = VStr d
                        /\ child_weight p = VStr e /\ child_height p = VStr f)
                   lines table)
  /\ (forall numbers : list Z,
        lines <> [] ->
        Forall2 (fun line z =>
                   exists a b c d e f,
                     PyStr.split_whitespace line = [a; b; c; d; e; f]
                     /\ int64_cell (VStr a) = Some z)
                lines numbers ->
        exists table,
          _load_demographic_information to_numeric lines = Ok table
          /\ map patient_number table = map VInt numbers)
  /\ _load_demographic_information to_numeric ["101 3 M 16.4 NA NA"]
     = Ok [ {| patient_number := VInt 101; age := VStr "3"; sex := VStr "M";
               adult_bmi := VStr "16.4"; child_weight := VStr "NA";
               child_height := VStr "NA" |} ].
Proof.
  split; [|split; [|split]].
  - intros (line & Hin & Hbad). unfold _load_demographic_information.
    destruct (map_result_In_raises demographic_line lines) as (x & e & _ & Hx & Hr).
    { exists line. split; [exact Hin|]. now rewrite demographic_line_wrong_count. }
    destruct (demographic_line_cases x) as [[_ Hx']|(a & b & c & d & e' & f & _ & Hx')];
      rewrite Hx' in Hx; [|discriminate].
    injection Hx as <-. now rewrite Hr.
  - intros table Htable. unfold _load_demographic_information in Htable.
    apply bind_ok in Htable as (patient_info & Hinfo & Htable). cbv zeta in Htable.
    apply bind_ok in Htable as (column & _ & Htable).
    apply bind_ok in Htable as (numbers & _ & [= <-]).
    pose proof (demographic_rows lines patient_info Hinfo) as Hrows.
    pose proof (assign_patient_number_others patient_info numbers) as Hkept.
    split.
    + rewrite <- (Forall2_length _ _ _ Hkept). symmetry. exact (Forall2_length _ _ _ Hrows).
    + eapply Forall2_compose; [|exact Hrows|exact Hkept].
      intros line p q (a & b & c & d & e & f & Hf & ->) (Hb & Hc & Hd & He & Hg).
      exists a, b, c, d, e, f. simpl in *. tauto.
  - intros numbers Hne Hall. unfold _load_demographic_information.
    destruct (map_result_all_ok demographic_line lines) as [patient_info Hinfo].
    { clear Hne.
      induction Hall as [|line z lines numbers (a & b & c & d & e & f & Hf & _) _ IH];
        constructor; [|exact IH].
      now rewrite (demographic_line_six _ _ _ _ _ _ _ Hf). }
    rewrite Hinfo. cbn [bind]. cbv zeta.
    pose proof (demographic_rows lines patient_info Hinfo) as Hrows.
    assert (Hcells : map int64_cell (map patient_number patient_info) = map Some numbers).
    { clear Hinfo Hne. revert numbers Hall.
      induction Hrows as [|line p lines patient_info Hp _ IH]; intros numbers Hall;
        inversion Hall as [|? z ? numbers' Hz Hall']; subst; [reflexivity|].
      simpl. f_equal; [|now apply IH].
      destruct Hp as (a & b & c & d & e & f & Hf & ->).
      destruct Hz as (a' & b' & c' & d' & e' & f' & Hf' & Hz).
      rewrite Hf in Hf'. injection Hf' as <- _ _ _ _ _. exact Hz. }
    assert (Hcol : patient_number_column patient_info = Ok (map patient_number patient_info)).
    { destruct patient_info; [|reflexivity].
      apply Forall2_length in Hrows. destruct lines; [congruence | discriminate]. }
    rewrite Hcol. cbn [bind].
    rewrite (to_numeric_reads_integers _ _ Hcells). cbn [bind].
    eexists. split; [reflexivity|].
    apply assign_patient_number_column.
    apply (f_equal length) in Hcells. rewrite !length_map in Hcells.
    rewrite length_map. lia.
  - unfold _load_demographic_information.
    change (map_result demographic_line ["101 3 M 16.4 NA NA"])
      with (Ok [ {| patient_number := VStr "101"; age := VStr "3"; sex := VStr "M";
                    adult_bmi := VStr "16.4"; child_weight := VStr "NA";
                    child_height := VStr "NA" |} ]).
    cbn [bind patient_number_column map patient_number]. cbv zeta.
    rewrite (to_numeric_reads_integers [VStr "101"] [101]) by reflexivity.
    reflexivity.
Qed.

End Demographics.

Lemma demographic_parser_witness :
  Patients._load_demographic_information Patients.to_numeric_integers
    ["101 3 M 16.4 NA NA"; "102 0.75 F NA 9.8"] = Raise AssertionError
  /\ exists table,
       Patients._load_demographic_information Patients.to_numeric_integers
         ["101 3 M 16.4 NA NA"; "102 0.75 F NA 9.8 73"] = Ok table
       /\ map Patients.patient_number table = map Py.VInt [101; 102].
Proof.
  split.
  - apply (proj1 (demographic_parser Patients.to_numeric_integers
                    to_numeric_integers_reads _)).
    exists "102 0.75 F NA 9.8". split; [simpl; tauto | vm_compute; lia].
  - apply (proj1 (proj2 (proj2 (demographic_parser Patients.to_numeric_integers
                                  to_numeric_integers_reads _)))).
    + discriminate.
    + repeat constructor.
      * now exists "101", "3", "M", "16.4", "NA", "NA".
      * now exists "102", "0.75", "F", "NA", "9.8", "73".
Defined.

(** ** Assembling the recordings table *)

Section Assembly.

Import Py Recordings.

Variables audio rate : Type.
Variable librosa_load : string -> result (audio * rate).

Lemma load_recording_datum_eq (file_path : string) :
  _load_recording_datum librosa_load file_path = librosa_load file_path.
Proof.
  unfold _load_recording_datum. destruct (librosa_load file_path) as [[a r]|e]; reflexivity.
Qed.

(** With columns of one length, every column is found again in the rows. *)
Lemma concat_columns_columns (ids : list Z) (metas : list RecordingMetaInfo)
  (data : list (audio * rate)) :
  length ids = length data -> length metas = length data ->
  map recording_id (concat_columns ids metas data) = ids
  /\ map meta (concat_columns ids metas data) = metas
  /\ map (fun row => (audio_recording row, sample_rate row))
         (concat_columns ids metas data) = data.
Proof.
  revert metas data. induction ids as [|i ids IH]; intros [|m metas] [|[a r] data] Hi Hm;
    simpl in *; try discriminate; [tauto|].
  destruct (IH metas data) as (H1 & H2 & H3); [lia | lia|].
  rewrite H1, H2, H3. tauto.
Qed.

Lemma range_length (n : nat) : length (range n) = n.
Proof. unfold range. now rewrite length_map, length_seq. Qed.

Lemma range_lookup (n i : nat) (z : Z) : range n !! i = Some z -> z = Z.of_nat i.
Proof.
  unfold range. rewrite list_lookup_fmap. intros H.
  destruct (seq 0 n !! i) as [k|] eqn:Hk; [|discriminate].
  apply lookup_seq in Hk as [-> _]. simpl in H. now injection H as <-.
Qed.

Lemma assemble_recordings_mismatch (recording_data : list (audio * rate))
  (recording_meta_info : list RecordingMetaInfo) :
  length recording_data <> length recording_meta_info ->
  assemble_recordings recording_data recording_meta_info = Raise AssertionError.
Proof.
  intros Hne. unfold assemble_recordings.
  rewrite (proj2 (Nat.eqb_neq (length recording_data) (length recording_meta_info)) Hne).
  rewrite andb_false_r. reflexivity.
Qed.

Lemma assemble_recordings_match (recording_data : list (audio * rate))
  (recording_meta_info : list RecordingMetaInfo) :
  length recording_data = length recording_meta_info ->
  assemble_recordings recording_data recording_meta_info
  = Ok (concat_columns (range (length recording_data)) recording_meta_info recording_data).
Proof.
  intros Heq. unfold assemble_recordings.
  rewrite Nat.eqb_refl, (proj2 (Nat.eqb_eq _ _) Heq). reflexivity.
Qed.

End Assembly.

Section LoadRecordings.

Import Py Recordings.

Variables audio rate : Type.
Variable librosa_load : string -> result (audio * rate).

(** The metadata of one path, as the comprehension computes it. *)
Let parse (wav_file_path : string) : result RecordingMetaInfo :=
  let* stem := _extract_file_name_without_extension_from_path wav_file_path in
  _extract_meta_info_from_file_name stem.

(** C9. The discovered files are the directory entries with a wav name.
    A returned table has one row per discovered file, in that order: row
    [i] carries the id [i], the decoded audio and the metadata of file
    [i], so the ids are 0 .. N-1.  The table is returned whenever every
    file decodes and every name parses.  Sub-tables of different
    lengths fail the assertion of the assembly. *)
Theorem recordings_table (entries : list DirEntry) :
  let wav_file_paths := _get_file_paths (_get_wav_dir_entries entries) in
  (forall table,
     load_recordings librosa_load entries = Ok table ->
     length table = length wav_file_paths
     /\ map recording_id table = range (length wav_file_paths)
     /\ (forall (i : nat) row, table !! i = Some row -> recording_id row = Z.of_nat i)
     /\ Forall2 (fun wav_file_path row =>
                   librosa_load wav_file_path = Ok (audio_recording row, sample_rate row)
                   /\ parse wav_file_path = Ok (meta row))
                wav_file_paths table)
  /\ (Forall (fun wav_file_path =>
                is_ok (librosa_load wav_file_path) = true
                /\ is_ok (parse wav_file_path) = true) wav_file_paths ->
      exists table, load_recordings librosa_load entries = Ok table)
  /\ (forall (recording_data : list (audio * rate))
             (recording_meta_info : list RecordingMetaInfo),
        length recording_data <> length recording_meta_info ->
        assemble_recordings recording_data recording_meta_info = Raise AssertionError).
Proof.
  intros wav_file_paths. split; [|split].
  - intros table Htable. unfold load_recordings in Htable.
    fold wav_file_paths in Htable.
    apply bind_ok in Htable as (data & Hdata & Htable).
    apply bind_ok in Htable as (metas & Hmetas & Htable).
    pose proof (map_result_length _ _ _ Hdata) as Hld.
    pose proof (map_result_length _ _ _ Hmetas) as Hlm.
    rewrite assemble_recordings_match in Htable by lia.
    injection Htable as <-.
    destruct (concat_columns_columns audio rate (range (length data)) metas data)
      as (Hids & Hms & Hds); [apply range_length | lia|].
    assert (Hlen : length (concat_columns (range (length data)) metas data)
                   = length wav_file_paths).
    { pose proof (f_equal length Hds) as Hl. rewrite length_map in Hl. lia. }
    split; [exact Hlen|]. split; [now rewrite Hids, Hld|]. split.
    + intros i row Hrow. apply (range_lookup (length data)).
      rewrite <- Hids. rewrite list_lookup_fmap, Hrow. reflexivity.
    + apply Forall2_same_length_lookup_2; [now rewrite Hlen|].
      intros i path row Hpath Hrow. split.
      * apply map_result_Ok in Hdata.
        assert (Hd : data !! i = Some (audio_recording row, sample_rate row)).
        { rewrite <- Hds. rewrite list_lookup_fmap, Hrow. reflexivity. }
        pose proof (Forall2_lookup_lr _ _ _ _ _ _ Hdata Hpath Hd) as H.
        simpl in H. now rewrite load_recording_datum_eq in H.
      * apply map_result_Ok in Hmetas.
        assert (Hm : metas !! i = Some (meta row)).
        { rewrite <- Hms. rewrite list_lookup_fmap, Hrow. reflexivity. }
        exact (Forall2_lookup_lr _ _ _ _ _ _ Hmetas Hpath Hm).
  - intros Hall. unfold load_recordings. fold wav_file_paths.
    destruct (map_result_all_ok (_load_recording_datum librosa_load) wav_file_paths)
      as [data Hdata].
    { eapply Forall_impl; [exact Hall|]. intros path [H _].
      now rewrite load_recording_datum_eq. }
    destruct (map_result_all_ok parse wav_file_paths) as [metas Hmetas].
    { eapply Forall_impl; [exact Hall|]. now intros path [_ H]. }
    unfold _load_recording_data. rewrite Hdata. cbn [bind].
    unfold _load_recording_meta_info. fold parse. rewrite Hmetas. cbn [bind].
    pose proof (map_result_length _ _ _ Hdata) as Hld.
    pose proof (map_result_length _ _ _ Hmetas) as Hlm.
    rewrite assemble_recordings_match by lia. eauto.
  - apply assemble_recordings_mismatch.
Qed.

End LoadRecordings.

(** ** Paths and their directory part *)



Lemma endswith_unfold (s suffix : string) :
  PyStr.endswith s suffix
  = String.eqb s suffix
    || match s with
       | EmptyString => false
       | String _ s' => PyStr.endswith s' suffix
       end.
Proof. destruct s; reflexivity. Qed.




(** ** The cache *)

Lemma stat_insert_eq (fs : gmap string Os.node) (p : string) (n : Os.node) :
  p <> "" -> Os.stat (<[p := n]> fs) p = Some n.
Proof.
  intros Hp. unfold Os.stat. destruct p; [congruence|]. simpl. apply lookup_insert_eq.
Qed.


Lemma stat_empty (fs : gmap string Os.node) : Os.stat fs "" = None.
Proof. reflexivity. Qed.

Lemma mkdir_calls (p : string) (w : Os.world) :
  Os.loader_calls (snd (Os.mkdir p w)) = Os.loader_calls w.
Proof.
  unfold Os.mkdir. destruct (PyStr.is_empty p); [reflexivity|].
  destruct (Os.check_parent (Os.files w) p); [|reflexivity].
  destruct (Os.stat (Os.files w) p); reflexivity.
Qed.

Lemma write_file_calls (p content : string) (w : Os.world) :
  Os.loader_calls (snd (Os.write_file p content w)) = Os.loader_calls w.
Proof.
  unfold Os.write_file. destruct (PyStr.is_empty p); [reflexivity|].
  destruct (Os.check_parent (Os.files w) p); [|reflexivity].
  destruct (Os.stat (Os.files w) p) as [[|]|]; try reflexivity;
    destruct (PyStr.endswith p "/"); reflexivity.
Qed.

Lemma create_path_calls (p : string) (w : Os.world) :
  Os.loader_calls (snd (Tools.create_path_if_nonexistent p w)) = Os.loader_calls w.
Proof.
  unfold Tools.create_path_if_nonexistent, Os.bind, Os.path_exists.
  destruct (Os.stat (Os.files w) p); simpl; [reflexivity | apply mkdir_calls].
Qed.

(** The directory is there: nothing is created. *)
Lemma create_path_present (p : string) (w : Os.world) (n : Os.node) :
  Os.stat (Os.files w) p = Some n ->
  Tools.create_path_if_nonexistent p w = (Ok tt, w).
Proof.
  intros H. unfold Tools.create_path_if_nonexistent, Os.bind, Os.path_exists.
  now rewrite H.
Qed.

(** The directory is not there: [os.mkdir] decides. *)
Lemma create_path_absent (p : string) (w : Os.world) :
  Os.stat (Os.files w) p = None ->
  Tools.create_path_if_nonexistent p w = Os.mkdir p w.
Proof.
  intros H. unfold Tools.create_path_if_nonexistent, Os.bind, Os.path_exists.
  now rewrite H.
Qed.


Lemma mkdir_no_parent (p : string) (w : Os.world) (e : exn) :
  Os.check_parent (Os.files w) p = Raise e -> Os.mkdir p w = (Raise e, w).
Proof.
  intros Hparent. unfold Os.mkdir.
  destruct p as [|c p]; [discriminate Hparent|].
  cbn [PyStr.is_empty]. now rewrite Hparent.
Qed.


Section CacheProperties.

Variable table : Type.
Variable pickle_dumps : table -> string.
Variable pickle_loads : string -> result table.

Abbreviation load := (load_data_frame_with_cache table pickle_dumps pickle_loads).

Lemma load_hit (data_frame_loader : loader table) (cache_path content : string)
  (w : Os.world) :
  Os.stat (Os.files w) cache_path = Some (Os.File content) ->
  load data_frame_loader cache_path w = (pickle_loads content, w).
Proof.
  intros Hfile.
  unfold load_data_frame_with_cache, Os.bind, Os.path_isfile, read_pickle, Os.bind,
    Os.read_file, Os.lift.
  rewrite Hfile. rewrite Hfile. now destruct (pickle_loads content).
Qed.

Lemma load_miss (data_frame_loader : loader table) (cache_path : string) (w : Os.world) :
  miss (Os.files w) cache_path ->
  load data_frame_loader cache_path w
  = compute_and_store table pickle_dumps data_frame_loader cache_path w.
Proof.
  intros Hmiss.
  unfold load_data_frame_with_cache, compute_and_store, Os.bind at 1, Os.path_isfile.
  destruct (Os.stat (Os.files w) cache_path) as [[content|]|] eqn:Hstat; try reflexivity.
  exfalso. exact (Hmiss content Hstat).
Qed.

Lemma compute_and_store_calls (data_frame_loader : loader table) (cache_path : string)
  (w : Os.world) :
  Os.loader_calls (snd (compute_and_store table pickle_dumps data_frame_loader cache_path w))
  = S (Os.loader_calls w).
Proof.
  unfold compute_and_store, Os.bind, call, to_pickle, Os.ret.
  destruct (data_frame_loader (Os.files w)) as [[recording_data|e] fs]; [|reflexivity].
  set (w1 := {| Os.files := fs; Os.loader_calls := S (Os.loader_calls w) |}).
  pose proof (create_path_calls (PosixPath.dirname cache_path) w1) as H1.
  destruct (Tools.create_path_if_nonexistent (PosixPath.dirname cache_path) w1)
    as [[[]|e] w2]; simpl in H1; [|exact H1].
  pose proof (write_file_calls cache_path (pickle_dumps recording_data) w2) as H2.
  destruct (Os.write_file cache_path (pickle_dumps recording_data) w2)
    as [[[]|e] w3]; simpl in *; congruence.
Qed.

Lemma compute_and_store_raise (data_frame_loader : loader table) (cache_path : string)
  (w : Os.world) (e : exn) (fs : gmap string Os.node) :
  data_frame_loader (Os.files w) = (Raise e, fs) ->
  compute_and_store table pickle_dumps data_frame_loader cache_path w
  = (Raise e, Os.World fs (S (Os.loader_calls w))).
Proof. intros H. unfold compute_and_store, Os.bind, call. now rewrite H. Qed.

Lemma compute_and_store_ok (data_frame_loader : loader table) (cache_path : string)
  (w : Os.world) (recording_data : table) (fs : gmap string Os.node) :
  data_frame_loader (Os.files w) = (Ok recording_data, fs) ->
  compute_and_store table pickle_dumps data_frame_loader cache_path w
  = match Tools.create_path_if_nonexistent (PosixPath.dirname cache_path)
            (Os.World fs (S (Os.loader_calls w))) with
    | (Ok _, w2) =>
        match Os.write_file cache_path (pickle_dumps recording_data) w2 with
        | (Ok _, w3) => (Ok recording_data, w3)
        | (Raise e, w3) => (Raise e, w3)
        end
    | (Raise e, w2) => (Raise e, w2)
    end.
Proof.
  intros H. unfold compute_and_store, Os.bind, call, to_pickle, Os.ret. rewrite H.
  reflexivity.
Qed.


End CacheProperties.



Lemma recordings_table_witness :
  (exists table,
     Recordings.load_recordings Example.decode
       [ {| Recordings.name := "101_1b1_Al_sc_Meditron.wav";
            Recordings.path := "/data/101_1b1_Al_sc_Meditron.wav" |};
         {| Recordings.name := "filename_format.txt";
            Recordings.path := "/data/filename_format.txt" |};
         {| Recordings.name := "102_1b1_Ar_mc_AKGC417L.WAV";
            Recordings.path := "/data/102_1b1_Ar_mc_AKGC417L.WAV" |} ] = Ok table)
  /\ Recordings.assemble_recordings [("samples", 22050)] [] = Raise AssertionError.
Proof.
  split.
  - apply (proj1 (proj2 (recordings_table string Z Example.decode _))).
    repeat constructor.
  - apply (proj2 (proj2 (recordings_table string Z Example.decode []))).
    discriminate.
Defined.

(** * Further properties *)

(** ** The codec beyond the round trip *)

Lemma index_from_ok (x : string) (l : list string) (pos k : Z) :
  Py.index_from x l pos = Ok k ->
  exists n : nat, k = pos + Z.of_nat n /\ l !! n = Some x.
Proof.
  intros Hk. destruct (in_dec string_dec x l) as [Hin|Hout].
  - destruct (index_from_in x l pos Hin) as (n & Hn & Hl).
    exists n. split; [congruence | exact Hl].
  - rewrite (index_from_not_in x l pos Hout) in Hk. discriminate.
Qed.

Lemma name_to_class_ok (diagnosis : string) (k : Z) :
  convert_diagnosis_name_to_class diagnosis = Ok k ->
  0 <= k < num_classes /\ get_diagnosis_names !! Z.to_nat k = Some diagnosis.
Proof.
  unfold convert_diagnosis_name_to_class, Tools.convert_diagnosis_name_to_class,
    Py.index, num_classes, get_diagnosis_names.
  intros Hk. apply index_from_ok in Hk as (n & -> & Hn).
  pose proof (lookup_lt_Some _ _ _ Hn) as Hlt.
  rewrite Z.add_0_l, Nat2Z.id. split; [lia | exact Hn].
Qed.

(** X1. The conversion of a name returns the label [k] exactly when [k]
    is in [0, K) and the name stands at position [k] of the mapping: the
    label is an int from range(8), as the docstring says. *)
Theorem name_to_class_characterised (diagnosis : string) (k : Z) :
  convert_diagnosis_name_to_class diagnosis = Ok k
  <-> 0 <= k < num_classes /\ get_diagnosis_names !! Z.to_nat k = Some diagnosis.
Proof.
  unfold convert_diagnosis_name_to_class, Tools.convert_diagnosis_name_to_class,
    Py.index, num_classes, get_diagnosis_names.
  split; [apply name_to_class_ok|].
  - intros [Hk Hn].
    rewrite (index_from_NoDup _ _ 0 _ diagnosis_names_NoDup Hn). f_equal. lia.
Qed.

(** X2. A negative label the subscript accepts does not come back: for
    a label in [-K, 0) the name converts to label + K. *)
Theorem negative_label_round_trip (label : Z) :
  - num_classes <= label < 0 ->
  (let* name := convert_diagnosis_class_to_name label in
   convert_diagnosis_name_to_class name) = Ok (label + num_classes).
Proof.
  intros Hneg.
  unfold convert_diagnosis_class_to_name, Tools.convert_diagnosis_class_to_name.
  rewrite getitem_negative by exact Hneg.
  destruct (getitem_in_range Tools.diagnosis_class_name_mapping
              (label + Z.of_nat (length Tools.diagnosis_class_name_mapping)))
    as (name & Hget & Hl); [unfold num_classes, get_diagnosis_names in Hneg; lia|].
  rewrite Hget. cbn [bind].
  unfold convert_diagnosis_name_to_class, Tools.convert_diagnosis_name_to_class, Py.index.
  rewrite (index_from_NoDup name _ 0 _ diagnosis_names_NoDup Hl).
  f_equal. unfold num_classes, get_diagnosis_names in *. lia.
Qed.

Lemma negative_label_round_trip_witness :
  (let* name := convert_diagnosis_class_to_name (-1) in
   convert_diagnosis_name_to_class name) = Ok (-1 + num_classes).
Proof. apply (negative_label_round_trip (-1)). rewrite num_classes_eq. lia. Defined.

(** ** The diagnosis table *)

(** X3. Every row of a loaded diagnosis table keeps the patient number
    of its input row, and its class is a label of [0, K) that converts
    back to the name the input row had. *)
Theorem diagnosis_table_rows (rows : list (Z * string))
  (table : list Patients.PatientDiagnosis) :
  Patients._load_patient_diagnoses rows = Ok table ->
  Forall2 (fun row out =>
             Patients.diagnosis_patient_number out = fst row
             /\ 0 <= Patients.diagnosis_class out < num_classes
             /\ convert_diagnosis_class_to_name (Patients.diagnosis_class out)
                = Ok (snd row))
          rows table.
Proof.
  unfold Patients._load_patient_diagnoses. intros H.
  apply bind_ok in H as (classes & Hc & [= <-]).
  apply map_result_Ok in Hc. revert classes Hc.
  induction rows as [|[number name] rows IH]; intros classes Hc;
    inversion Hc as [|? label ? classes' Hlabel Hrest]; subst; simpl; constructor.
  - simpl. split; [reflexivity|].
    apply name_to_class_ok in Hlabel as [Hrange Hname].
    split; [exact Hrange|].
    destruct (class_to_name_in_range label Hrange) as (name' & Hget & Hname').
    rewrite Hname in Hname'. now injection Hname' as <-.
  - now apply IH.
Qed.

Lemma diagnosis_table_rows_witness :
  Forall2 (fun row out =>
             Patients.diagnosis_patient_number out = fst row
             /\ 0 <= Patients.diagnosis_class out < num_classes
             /\ convert_diagnosis_class_to_name (Patients.diagnosis_class out)
                = Ok (snd row))
          [(101, "URTI"); (104, "Asthma")]
          [ {| Patients.diagnosis_patient_number := 101; Patients.diagnosis_class := 7 |};
            {| Patients.diagnosis_patient_number := 104; Patients.diagnosis_class := 1 |} ].
Proof. apply (diagnosis_table_rows [(101, "URTI"); (104, "Asthma")]). reflexivity. Defined.

(** ** The patients tables *)

Lemma demographic_bad_line (to_numeric : list Py.value -> result (list Py.value))
  (lines : list string) (line : string) :
  In line lines -> length (PyStr.split_whitespace line) <> 6%nat ->
  Patients._load_demographic_information to_numeric lines = Raise AssertionError.
Proof.
  intros Hin Hbad. unfold Patients._load_demographic_information.
  destruct (map_result_In_raises Patients.demographic_line lines) as (x & e & _ & Hx & Hr).
  { exists line. split; [exact Hin|]. now rewrite demographic_line_wrong_count. }
  destruct (demographic_line_cases x) as [[_ Hx']|(a & b & c & d & e' & f & _ & Hx')];
    rewrite Hx' in Hx; [|discriminate].
  injection Hx as <-. now rewrite Hr.
Qed.

Lemma diagnoses_unknown_name (rows : list (Z * string)) (row : Z * string) :
  In row rows -> ~ In (snd row) get_diagnosis_names ->
  Patients._load_patient_diagnoses rows = Raise ValueError.
Proof.
  intros Hin Hbad. unfold Patients._load_patient_diagnoses.
  destruct (map_result_In_raises Tools.convert_diagnosis_name_to_class (map snd rows))
    as (s & e & _ & Hs & Hr).
  { exists (snd row). split; [now apply in_map|].
    pose proof (name_to_class_unknown _ Hbad) as Hu.
    unfold convert_diagnosis_name_to_class in Hu. now rewrite Hu. }
  apply index_raises in Hs as [-> _]. now rewrite Hr.
Qed.

Section PatientsTables.

Import Py Patients.

Variable to_numeric : list value -> result (list value).
Variable joined : Type.
Variable merge : list PatientDiagnosis -> list Patient -> result joined.

(** X4. The demographic table is never empty: a file without lines
    raises KeyError, because the frame built from no record has no
    patient_number column, and every table that is returned has a row. *)
Theorem demographic_table_never_empty (lines : list string) :
  (lines = [] -> _load_demographic_information to_numeric lines = Raise KeyError)
  /\ (forall table,
        _load_demographic_information to_numeric lines = Ok table ->
        lines <> [] /\ table <> []).
Proof.
  split; [now intros ->|].
  intros table Htable. unfold _load_demographic_information in Htable.
  apply bind_ok in Htable as (patient_info & Hinfo & Htable). cbv zeta in Htable.
  apply bind_ok in Htable as (column & Hcolumn & Htable).
  apply bind_ok in Htable as (numbers & _ & [= <-]).
  destruct patient_info as [|p patient_info]; [discriminate Hcolumn|].
  split.
  - apply map_result_length in Hinfo. destruct lines; [discriminate | discriminate].
  - pose proof (assign_patient_number_others (p :: patient_info) numbers) as Hkept.
    apply Forall2_length in Hkept.
    destruct (assign_patient_number (p :: patient_info) numbers); discriminate.
Qed.

(** X5. The patients table is parsed in a fixed order: the demographic
    file first, then the diagnosis file, then the join.  A line of the
    wrong field count raises AssertionError whatever the diagnosis file
    holds; an unknown diagnosis name raises ValueError once the
    demographic file has parsed; with both parsed the result is the join
    of the diagnoses, on the left, with the demographics. *)
Theorem load_patients_order (lines : list string) (rows : list (Z * string)) :
  ((exists line, In line lines /\ length (PyStr.split_whitespace line) <> 6%nat) ->
   load_patients to_numeric joined merge lines rows = Raise AssertionError)
  /\ (forall patient_demographics,
        _load_demographic_information to_numeric lines = Ok patient_demographics ->
        (exists row, In row rows /\ ~ In (snd row) get_diagnosis_names) ->
        load_patients to_numeric joined merge lines rows = Raise ValueError)
  /\ (forall patient_demographics patient_diagnoses,
        _load_demographic_information to_numeric lines = Ok patient_demographics ->
        _load_patient_diagnoses rows = Ok patient_diagnoses ->
        load_patients to_numeric joined merge lines rows
        = merge patient_diagnoses patient_demographics).
Proof.
  unfold load_patients. split; [|split].
  - intros (line & Hin & Hbad).
    now rewrite (demographic_bad_line to_numeric lines line Hin Hbad).
  - intros demographics Hd (row & Hin & Hbad). rewrite Hd. cbn [bind].
    now rewrite (diagnoses_unknown_name rows row Hin Hbad).
  - intros demographics diagnoses Hd Hg. now rewrite Hd, Hg.
Qed.

End PatientsTables.

Lemma demographic_table_never_empty_witness :
  Patients._load_demographic_information Patients.to_numeric_integers [] = Raise KeyError
  /\ ["101 3 M 16.4 NA NA"] <> []
  /\ [ {| Patients.patient_number := Py.VInt 101; Patients.age := Py.VStr "3";
          Patients.sex := Py.VStr "M"; Patients.adult_bmi := Py.VStr "16.4";
          Patients.child_weight := Py.VStr "NA"; Patients.child_height := Py.VStr "NA" |} ]
     <> [].
Proof.
  split.
  - now apply (proj1 (demographic_table_never_empty Patients.to_numeric_integers [])).
  - apply (proj2 (demographic_table_never_empty Patients.to_numeric_integers
                    ["101 3 M 16.4 NA NA"])).
    reflexivity.
Defined.

Lemma load_patients_order_witness :
  Patients.load_patients Patients.to_numeric_integers nat
    (fun diagnoses demographics => Ok (length diagnoses + length demographics)%nat)
    ["101 3 M 16.4 NA NA"; "102 0.75 F"] [(101, "Flu")] = Raise AssertionError
  /\ Patients.load_patients Patients.to_numeric_integers nat
       (fun diagnoses demographics => Ok (length diagnoses + length demographics)%nat)
       ["101 3 M 16.4 NA NA"] [(101, "Flu")] = Raise ValueError.
Proof.
  split.
  - apply (proj1 (load_patients_order Patients.to_numeric_integers nat _ _ _)).
    exists "102 0.75 F". split; [simpl; tauto | vm_compute; lia].
  - eapply (proj1 (proj2 (load_patients_order Patients.to_numeric_integers nat _ _ _))).
    + reflexivity.
    + exists (101, "Flu"). split; [simpl; tauto | simpl; intuition discriminate].
Defined.

(** ** Names built by the convention *)

Lemma split_by_app_sep (sep : ascii -> bool) (s t : string) (c : ascii) :
  sep c = true ->
  PyStr.split_by sep (s ++ String c t)
  = (PyStr.split_by sep s ++ PyStr.split_by sep t)%list.
Proof.
  intros Hc. induction s as [|a s IH].
  - rewrite string_app_nil. now rewrite (split_by_cons_sep _ _ _ Hc).
  - rewrite string_app_cons. destruct (sep a) eqn:Ha.
    + rewrite !(split_by_cons_sep _ _ _ Ha), IH. reflexivity.
    + pose proof (split_by_not_nil sep s) as Hnil.
      destruct (PyStr.split_by sep s) as [|w ws] eqn:Hs; [congruence|].
      rewrite (split_by_cons_other _ _ _ _ _ Ha Hs).
      now rewrite (split_by_cons_other _ _ _ w (ws ++ PyStr.split_by sep t)%list Ha IH).
Qed.

(** Splitting what was joined gives the pieces back when no piece holds
    the separator. *)
Lemma split_join (c : ascii) (parts : list string) :
  parts <> [] -> Forall (fun w => PyStr.contains c w = false) parts ->
  PyStr.split c (PyStr.join (String c EmptyString) parts) = parts.
Proof.
  intros Hne Hall. induction Hall as [|w ws Hw Hws IH]; [congruence|].
  destruct ws as [|w' ws].
  - now apply split_without.
  - rewrite join_cons by discriminate.
    change (String c EmptyString ++ PyStr.join (String c EmptyString) (w' :: ws))
      with (String c (PyStr.join (String c EmptyString) (w' :: ws))).
    unfold PyStr.split. rewrite split_by_app_sep by apply Ascii.eqb_refl.
    fold (PyStr.split c w). fold (PyStr.split c (PyStr.join (String c EmptyString) (w' :: ws))).
    rewrite (split_without _ _ Hw), IH by discriminate. reflexivity.
Qed.

Lemma cut_no_slash (s : string) :
  PyStr.contains "/" s = false -> PosixPath.cut s = (EmptyString, s).
Proof.
  induction s as [|c s IH]; [reflexivity|].
  rewrite contains_cons. intros H. apply orb_false_iff in H as [Hc Hs].
  rewrite cut_cons, (IH Hs). cbn [fst snd PyStr.is_empty negb].
  rewrite Ascii.eqb_sym, Hc. reflexivity.
Qed.

Lemma cut_after_slash (d name : string) :
  PyStr.contains "/" name = false ->
  PosixPath.cut (d ++ "/" ++ name) = (d ++ "/", name).
Proof.
  intros Hname. induction d as [|a d IH].
  - rewrite !string_app_nil.
    change ("/" ++ name) with (String "/" name).
    rewrite cut_cons, (cut_no_slash _ Hname). reflexivity.
  - change (String a d ++ "/" ++ name) with (String a (d ++ "/" ++ name)).
    change (String a d ++ "/") with (String a (d ++ "/")).
    rewrite cut_cons, IH. cbn [fst snd].
    replace (PyStr.is_empty (d ++ "/")) with false by (now destruct d).
    rewrite orb_true_r. reflexivity.
Qed.

(** The last component of a path made of a head and a name. *)
Lemma split_tail_of (head name : string) :
  head = "" \/ (exists d, head = d ++ "/") ->
  PyStr.contains "/" name = false ->
  snd (PosixPath.split (head ++ name)) = name.
Proof.
  intros Hhead Hname. rewrite split_tail. destruct Hhead as [->|[d ->]].
  - rewrite string_app_nil. now rewrite (cut_no_slash _ Hname).
  - rewrite string_app_assoc. now rewrite (cut_after_slash d name Hname).
Qed.

(** The stem of a path whose last component is a stem, a dot and an
    extension without a dot. *)
Lemma stem_of_name (file_path stem extension : string) :
  snd (PosixPath.split file_path) = stem ++ "." ++ extension ->
  PyStr.contains "." extension = false ->
  Recordings._extract_file_name_without_extension_from_path file_path = Ok stem.
Proof.
  intros Hname Hext. rewrite stem_extraction_eq. cbv zeta. rewrite Hname.
  change (stem ++ "." ++ extension) with (stem ++ String "." extension).
  unfold PyStr.split. rewrite split_by_app_sep by reflexivity.
  fold (PyStr.split "." stem). fold (PyStr.split "." extension).
  rewrite (split_without _ _ Hext).
  pose proof (split_by_not_nil (Ascii.eqb ".") stem) as Hnil. fold (PyStr.split "." stem) in Hnil.
  rewrite length_app. cbn [length].
  replace (2 <=? length (PyStr.split "." stem) + 1)%nat with true.
  - rewrite removelast_last. now rewrite join_split.
  - symmetry. apply Nat.leb_le. destruct (PyStr.split "." stem); [congruence | simpl; lia].
Qed.

(** ** Audio file names *)

Lemma endswith_prefix (s suffix : string) :
  PyStr.endswith s suffix = true -> exists prefix, s = prefix ++ suffix.
Proof.
  induction s as [|c s IH]; rewrite endswith_unfold; intros H;
    apply orb_true_iff in H as [H|H].
  - apply String.eqb_eq in H. now exists "".
  - discriminate.
  - apply String.eqb_eq in H. now exists "".
  - destruct (IH H) as [prefix ->]. now exists (String c prefix).
Qed.

(** Only the dot is lowered to the dot. *)
Lemma lower_char_dot (c : ascii) :
  Ascii.eqb "." (PyStr.lower_char c) = Ascii.eqb "." c.
Proof. destruct c as [[] [] [] [] [] [] [] []]; reflexivity. Qed.

Lemma contains_dot_lower (s : string) :
  PyStr.contains "." (PyStr.lower s) = PyStr.contains "." s.
Proof.
  induction s as [|c s IH]; [reflexivity|].
  cbn [PyStr.lower]. now rewrite !contains_cons, lower_char_dot, IH.
Qed.

(** What is lowered to two pieces is made of two pieces lowered to them. *)
Lemma lower_app_inv (s x y : string) :
  PyStr.lower s = x ++ y ->
  exists a b, s = a ++ b /\ PyStr.lower a = x /\ PyStr.lower b = y.
Proof.
  revert s. induction x as [|c x IH]; intros s H.
  - exists "", s. now rewrite string_app_nil in H.
  - rewrite string_app_cons in H. destruct s as [|c0 s]; [discriminate|].
    cbn [PyStr.lower] in H. injection H as Hc Hs.
    destruct (IH s Hs) as (a & b & -> & Ha & Hb).
    exists (String c0 a), b. cbn [PyStr.lower]. now rewrite Hc, Ha.
Qed.

(** A name with a lowered suffix of a dot and letters ends with a dot and
    an extension that is lowered to those letters. *)
Lemma lowered_suffix (name letters : string) :
  PyStr.endswith (PyStr.lower name) (String "." letters) = true ->
  exists stem extension,
    name = stem ++ "." ++ extension /\ PyStr.lower extension = letters.
Proof.
  intros H. apply endswith_prefix in H as [prefix H].
  apply lower_app_inv in H as (stem & b & -> & _ & Hb).
  destruct b as [|c extension]; [discriminate|].
  cbn [PyStr.lower] in Hb. injection Hb as Hc He.
  assert (c = "."%char) as ->.
  { apply Ascii.eqb_eq. rewrite Ascii.eqb_sym, <- lower_char_dot, Hc. reflexivity. }
  now exists stem, extension.
Qed.

(** X6. The stem assertion cannot fail on a discovered file: when the
    last component of a path is a name that [_is_wav] accepts, the stem
    is extracted, and the name is that stem, a dot and an extension that
    reads wav or wave in lower case. *)
Theorem wav_name_has_stem (file_path name : string) :
  Recordings._is_wav name = true ->
  snd (PosixPath.split file_path) = name ->
  exists stem extension,
    Recordings._extract_file_name_without_extension_from_path file_path = Ok stem
    /\ name = stem ++ "." ++ extension
    /\ (PyStr.lower extension = "wav" \/ PyStr.lower extension = "wave").
Proof.
  unfold Recordings._is_wav. cbv zeta. intros Hwav Htail.
  assert (Hname : exists stem extension,
            name = stem ++ "." ++ extension
            /\ (PyStr.lower extension = "wav" \/ PyStr.lower extension = "wave")).
  { apply orb_true_iff in Hwav as [H|H];
      apply lowered_suffix in H as (stem & extension & -> & He);
      exists stem, extension; auto. }
  destruct Hname as (stem & extension & -> & He).
  exists stem, extension. split; [|split; [reflexivity | exact He]].
  apply (stem_of_name file_path stem extension Htail).
  rewrite <- contains_dot_lower. now destruct He as [->| ->].
Qed.

Lemma wav_name_has_stem_witness :
  exists stem extension,
    Recordings._extract_file_name_without_extension_from_path
      "/data/102_1b1_Ar_mc_AKGC417L.WAV" = Ok stem
    /\ "102_1b1_Ar_mc_AKGC417L.WAV" = stem ++ "." ++ extension
    /\ (PyStr.lower extension = "wav" \/ PyStr.lower extension = "wave").
Proof.
  apply (wav_name_has_stem "/data/102_1b1_Ar_mc_AKGC417L.WAV"
           "102_1b1_Ar_mc_AKGC417L.WAV"); reflexivity.
Defined.

(** X7. Stem extraction undoes the naming of a file: for a head that is
    empty or ends with a slash, a stem and an extension without slashes,
    the extension without a dot, the path head + stem + "." + extension
    has the stem [stem], dots inside the stem included. *)
Theorem stem_round_trip (head stem extension : string) :
  head = "" \/ (exists d, head = d ++ "/") ->
  PyStr.contains "/" stem = false ->
  PyStr.contains "/" extension = false ->
  PyStr.contains "." extension = false ->
  Recordings._extract_file_name_without_extension_from_path
    (head ++ stem ++ "." ++ extension) = Ok stem.
Proof.
  intros Hhead Hstem Hext Hdot.
  apply (stem_of_name _ stem extension); [|exact Hdot].
  apply split_tail_of; [exact Hhead|].
  clear Hhead Hdot. induction stem as [|c stem IH].
  - rewrite string_app_nil. exact Hext.
  - rewrite string_app_cons, contains_cons.
    rewrite contains_cons in Hstem. apply orb_false_iff in Hstem as [Hc Hs].
    now rewrite Hc, IH.
Qed.

Lemma stem_round_trip_witness :
  Recordings._extract_file_name_without_extension_from_path
    ("/data/audio/" ++ "101_1b1.v2_Al_sc_Meditron" ++ "." ++ "wav")
  = Ok "101_1b1.v2_Al_sc_Meditron".
Proof.
  apply (stem_round_trip "/data/audio/" "101_1b1.v2_Al_sc_Meditron" "wav");
    [right; now exists "/data/audio" | reflexivity | reflexivity | reflexivity].
Defined.

Lemma contains_app (c : ascii) (a b : string) :
  PyStr.contains c (a ++ b) = PyStr.contains c a || PyStr.contains c b.
Proof.
  induction a as [|x a IH]; [reflexivity|].
  rewrite string_app_cons, !contains_cons, IH. apply orb_assoc.
Qed.

(** X8. The metadata parser undoes the naming convention: five fields
    without an underscore, the first an integer literal, joined with
    underscores, parse to those fields; and the path made of a head, that
    name and an extension is read to the same record by the metadata
    loader. *)
Theorem meta_info_round_trip (a b c d e : string) (number : Z) :
  Forall (fun field => PyStr.contains "_" field = false) [a; b; c; d; e] ->
  PyStr.int_literal a = Some number ->
  let name := PyStr.join "_" [a; b; c; d; e] in
  let info := {| Recordings.patient_number := Py.VInt number;
                 Recordings.recording_index := Py.VStr b;
                 Recordings.chest_location := Py.VStr c;
                 Recordings.num_channels := Py.VInt (if String.eqb d "sc" then 1 else 2);
                 Recordings.recording_equipment := Py.VStr e |} in
  Recordings._extract_meta_info_from_file_name name = Ok info
  /\ (forall head extension,
        head = "" \/ (exists dir, head = dir ++ "/") ->
        PyStr.contains "/" name = false ->
        PyStr.contains "/" extension = false ->
        PyStr.contains "." extension = false ->
        Recordings._load_recording_meta_info [head ++ name ++ "." ++ extension]
        = Ok [info]).
Proof.
  intros Hfields Hint name info.
  assert (Hsplit : PyStr.split "_" name = [a; b; c; d; e])
    by (apply split_join; [discriminate | exact Hfields]).
  assert (Hinfo : Recordings._extract_meta_info_from_file_name name = Ok info).
  { rewrite (meta_info_five name a b c d e Hsplit). unfold PyStr.int. now rewrite Hint. }
  split; [exact Hinfo|].
  intros head extension Hhead Hname Hext Hdot.
  unfold Recordings._load_recording_meta_info. cbn [map_result].
  rewrite (stem_of_name _ name extension); [| |exact Hdot].
  2:{ apply split_tail_of; [exact Hhead|].
      rewrite contains_app, Hname. exact Hext. }
  cbn [bind]. rewrite Hinfo. reflexivity.
Qed.

Lemma meta_info_round_trip_witness :
  Recordings._extract_meta_info_from_file_name
    (PyStr.join "_" ["226"; "1b1"; "Pl"; "sc"; "LittC2SE"])
  = Ok {| Recordings.patient_number := Py.VInt 226;
          Recordings.recording_index := Py.VStr "1b1";
          Recordings.chest_location := Py.VStr "Pl";
          Recordings.num_channels := Py.VInt (if String.eqb "sc" "sc" then 1 else 2);
          Recordings.recording_equipment := Py.VStr "LittC2SE" |}.
Proof.
  apply (meta_info_round_trip "226" "1b1" "Pl" "sc" "LittC2SE" 226);
    [repeat constructor | reflexivity].
Defined.

(** ** The order of the failures of a load *)

Section LoadOrder.

Import Py Recordings.

Variables audio rate : Type.
Variable librosa_load : string -> result (audio * rate).

(** The metadata of one path, as the comprehension computes it. *)
Let parse (wav_file_path : string) : result RecordingMetaInfo :=
  let* stem := _extract_file_name_without_extension_from_path wav_file_path in
  _extract_meta_info_from_file_name stem.

(** X9. All audio is decoded before any name is parsed.  The first
    discovered file that fails to decode decides the exception of
    [load_recordings], whatever the names are; when every file decodes,
    the first file whose name fails to parse decides it. *)
Theorem load_recordings_failure_order (entries : list DirEntry) :
  let wav_file_paths := _get_file_paths (_get_wav_dir_entries entries) in
  (forall before file_path after e,
     wav_file_paths = (before ++ file_path :: after)%list ->
     Forall (fun p => is_ok (librosa_load p) = true) before ->
     librosa_load file_path = Raise e ->
     load_recordings librosa_load entries = Raise e)
  /\ (forall before file_path after e,
        wav_file_paths = (before ++ file_path :: after)%list ->
        Forall (fun p => is_ok (librosa_load p) = true) wav_file_paths ->
        Forall (fun p => is_ok (parse p) = true) before ->
        parse file_path = Raise e ->
        load_recordings librosa_load entries = Raise e).
Proof.
  intros wav_file_paths. split.
  - intros before file_path after e Hpaths Hbefore Hfail.
    unfold load_recordings. fold wav_file_paths. unfold _load_recording_data.
    rewrite (proj2 (map_result_Raise _ wav_file_paths e)); [reflexivity|].
    exists before, file_path, after. split; [exact Hpaths|]. split.
    + eapply Forall_impl; [exact Hbefore|]. intros p Hp.
      now rewrite load_recording_datum_eq.
    + now rewrite load_recording_datum_eq.
  - intros before file_path after e Hpaths Hdecode Hbefore Hfail.
    unfold load_recordings. fold wav_file_paths. unfold _load_recording_data.
    destruct (map_result_all_ok (_load_recording_datum librosa_load) wav_file_paths)
      as [data Hdata].
    { eapply Forall_impl; [exact Hdecode|]. intros p Hp.
      now rewrite load_recording_datum_eq. }
    rewrite Hdata. cbn [bind]. unfold _load_recording_meta_info. fold parse.
    rewrite (proj2 (map_result_Raise parse wav_file_paths e)); [reflexivity|].
    exists before, file_path, after. auto.
Qed.

End LoadOrder.

Lemma load_recordings_failure_order_witness :
  Recordings.load_recordings Example.decode
    [ {| Recordings.name := "misnamed.wav"; Recordings.path := "/data/misnamed.wav" |};
      {| Recordings.name := "101_1b1_Al_sc_Meditron.broken.wav";
         Recordings.path := "/data/101_1b1_Al_sc_Meditron.broken.wav" |} ]
  = Raise (LibraryError "librosa").
Proof.
  apply (proj1 (load_recordings_failure_order string Z Example.decode _)
           ["/data/misnamed.wav"] "/data/101_1b1_Al_sc_Meditron.broken.wav" []);
    [reflexivity | repeat constructor | reflexivity].
Defined.

(** ** Making the directory *)

Lemma check_parent_raises (fs : gmap string Os.node) (p : string) (e : exn) :
  Os.check_parent fs p = Raise e -> e = NotADirectoryError \/ e = FileNotFoundError.
Proof.
  unfold Os.check_parent. cbv zeta.
  destruct (PyStr.is_empty (PosixPath.dirname p)); [discriminate|].
  destruct (Os.stat fs (PosixPath.dirname p)) as [[|]|]; intros [= <-]; auto.
Qed.

(** What [os.mkdir] does, by the state it finds. *)
Lemma mkdir_cases (p : string) (w : Os.world) :
  (Os.mkdir p w = (Ok tt, Os.set_files w (<[p := Os.Dir]> (Os.files w)))
   /\ p <> "" /\ Os.stat (Os.files w) p = None)
  \/ (exists e, Os.mkdir p w = (Raise e, w)
                /\ (Os.stat (Os.files w) p = None -> e <> FileExistsError)).
Proof.
  unfold Os.mkdir. destruct p as [|c p]; [right; eexists; split; [reflexivity | discriminate]|].
  cbn [PyStr.is_empty].
  destruct (Os.check_parent (Os.files w) (String c p)) as [[]|e] eqn:Hparent.
  - destruct (Os.stat (Os.files w) (String c p)) as [n|] eqn:Hstat.
    + right. eexists. split; [reflexivity | discriminate].
    + left. split; [reflexivity | split; [discriminate | reflexivity]].
  - right. exists e. split; [reflexivity|]. intros _.
    destruct (check_parent_raises _ _ _ Hparent) as [-> | ->]; discriminate.
Qed.




(** ** The temporary directory and the cache paths *)

Lemma app_not_empty (y : string) (c : ascii) (t : string) :
  PyStr.is_empty (y ++ String c t) = false.
Proof. now destruct y. Qed.

Lemma eqb_app_single (y : string) (c : ascii) (t : string) :
  String.eqb (y ++ String c EmptyString) t = true -> exists y', t = y' ++ String c EmptyString.
Proof. intros H. apply String.eqb_eq in H. now exists y. Qed.

(** A path whose last character is no slash. *)
Lemma endswith_slash_last (y : string) (c : ascii) :
  Ascii.eqb c "/" = false -> PyStr.endswith (y ++ String c EmptyString) "/" = false.
Proof.
  intros Hc. induction y as [|a y IH].
  - rewrite string_app_nil, endswith_unfold.
    cbn [String.eqb]. rewrite Hc. reflexivity.
  - rewrite string_app_cons, endswith_unfold, IH.
    cbn [String.eqb].
    replace (String.eqb (y ++ String c EmptyString) EmptyString) with false
      by (now destruct y).
    now destruct (Ascii.eqb a "/").
Qed.

Lemma all_slashes_last (y : string) (c : ascii) (t : string) :
  Ascii.eqb c "/" = false -> PosixPath.all_slashes (y ++ String c t) = false.
Proof.
  intros Hc. induction y as [|a y IH].
  - rewrite string_app_nil. cbn [PosixPath.all_slashes]. now rewrite Hc.
  - rewrite string_app_cons. cbn [PosixPath.all_slashes]. rewrite IH. apply andb_false_r.
Qed.

Lemma rstrip_slash_last (y : string) (c : ascii) :
  Ascii.eqb c "/" = false ->
  PyStr.rstrip_by (Ascii.eqb "/") ((y ++ String c EmptyString) ++ "/")
  = y ++ String c EmptyString.
Proof.
  intros Hc. rewrite Ascii.eqb_sym in Hc. induction y as [|a y IH].
  - rewrite string_app_nil.
    change (PyStr.rstrip_by (Ascii.eqb "/") (String c EmptyString ++ "/"))
      with (if Ascii.eqb "/" c && true then EmptyString else String c EmptyString).
    rewrite Hc. reflexivity.
  - change ((String a y ++ String c EmptyString) ++ "/")
      with (String a ((y ++ String c EmptyString) ++ "/")).
    cbn [PyStr.rstrip_by]. rewrite IH, app_not_empty, andb_false_r. reflexivity.
Qed.

(** The directory part of a path joined from a directory that ends with
    no slash and a name without one. *)
Lemma dirname_join (y : string) (c : ascii) (file_name : string) :
  Ascii.eqb c "/" = false -> file_name <> "" -> PyStr.contains "/" file_name = false ->
  PosixPath.join (y ++ String c EmptyString) file_name
  = (y ++ String c EmptyString) ++ "/" ++ file_name
  /\ PosixPath.dirname (PosixPath.join (y ++ String c EmptyString) file_name)
     = y ++ String c EmptyString.
Proof.
  intros Hc Hne Hname.
  assert (Hjoin : PosixPath.join (y ++ String c EmptyString) file_name
                  = (y ++ String c EmptyString) ++ "/" ++ file_name).
  { unfold PosixPath.join.
    destruct file_name as [|f file_name]; [congruence|].
    rewrite contains_cons in Hname. apply orb_false_iff in Hname as [Hf _].
    cbn [PyStr.startswith]. rewrite Ascii.eqb_sym, Hf. cbn [andb].
    now rewrite app_not_empty, (endswith_slash_last y c Hc). }
  split; [exact Hjoin|]. rewrite Hjoin.
  unfold PosixPath.dirname. rewrite (cut_after_slash _ _ Hname). cbn [fst].
  unfold PosixPath.trim_head.
  rewrite string_app_assoc.
  change (String c EmptyString ++ "/") with (String c "/").
  rewrite app_not_empty, (all_slashes_last y c "/" Hc). cbn [negb andb].
  change (y ++ String c "/") with (y ++ String c EmptyString ++ "/").
  rewrite <- string_app_assoc. now apply rstrip_slash_last.
Qed.

(** The temporary directory ends with the letter p. *)
Lemma temp_path_shape (base : string) :
  exists y, PosixPath.join base "temp" = y ++ "p".
Proof.
  unfold PosixPath.join. cbn [PyStr.startswith]. cbn [Ascii.eqb andb].
  destruct (PyStr.is_empty base || PyStr.endswith base "/").
  - exists (base ++ "tem"). now rewrite string_app_assoc.
  - exists (base ++ "/tem"). now rewrite string_app_assoc.
Qed.

Lemma create_path_returns (path : string) (w w1 : Os.world) :
  Tools.create_path_if_nonexistent path w = (Ok tt, w1) ->
  exists n, Os.stat (Os.files w1) path = Some n.
Proof.
  destruct (Os.stat (Os.files w) path) as [n|] eqn:Hstat.
  - rewrite (create_path_present path w n Hstat). intros [= <-]. eauto.
  - rewrite (create_path_absent path w Hstat).
    destruct (mkdir_cases path w) as [(Hmk & Hne & _)|(e & Hmk & _)]; rewrite Hmk;
      [|discriminate].
    intros [= <-]. exists Os.Dir. now apply stat_insert_eq.
Qed.

(** X11. Once [get_temporary_dir] has returned, the path it returned is
    the base joined with temp, it exists, and a second call returns the
    same path without changing anything.  Every cache path made by
    joining that directory with a file name has the directory as its
    directory part, so the directory step of the cache finds it and
    makes nothing. *)
Theorem temporary_dir_holds_cache_paths (base temp : string) (w w1 : Os.world) :
  Tools.get_temporary_dir base w = (Ok temp, w1) ->
  temp = PosixPath.join base "temp"
  /\ (exists n, Os.stat (Os.files w1) temp = Some n)
  /\ Tools.get_temporary_dir base w1 = (Ok temp, w1)
  /\ (forall file_name,
        file_name <> "" -> PyStr.contains "/" file_name = false ->
        PosixPath.dirname (PosixPath.join temp file_name) = temp
        /\ Tools.create_path_if_nonexistent
             (PosixPath.dirname (PosixPath.join temp file_name)) w1 = (Ok tt, w1)).
Proof.
  unfold Tools.get_temporary_dir, Os.bind, Os.ret. cbv zeta.
  destruct (Tools.create_path_if_nonexistent (PosixPath.join base "temp") w)
    as [[[]|e] w'] eqn:Hcreate; [|discriminate].
  intros [= <- <-].
  destruct (create_path_returns _ _ _ Hcreate) as [n Hn].
  pose proof (create_path_present _ _ n Hn) as Hagain.
  split; [reflexivity|]. split; [eauto|]. split; [now rewrite Hagain|].
  intros file_name Hne Hname.
  destruct (temp_path_shape base) as [y Hy].
  assert (Hdir : PosixPath.dirname (PosixPath.join (PosixPath.join base "temp") file_name)
                 = PosixPath.join base "temp").
  { rewrite Hy. now apply dirname_join. }
  split; [exact Hdir|]. now rewrite Hdir.
Qed.

Lemma temporary_dir_holds_cache_paths_witness :
  "/pkg/temp" = PosixPath.join "/pkg" "temp"
  /\ (exists n,
        Os.stat (Os.files (Os.World (<["/pkg/temp" := Os.Dir]>
                                       (<["/pkg" := Os.Dir]> Example.root_only)) 0))
                "/pkg/temp" = Some n)
  /\ Tools.get_temporary_dir "/pkg"
       (Os.World (<["/pkg/temp" := Os.Dir]> (<["/pkg" := Os.Dir]> Example.root_only)) 0)
     = (Ok "/pkg/temp",
        Os.World (<["/pkg/temp" := Os.Dir]> (<["/pkg" := Os.Dir]> Example.root_only)) 0)
  /\ (forall file_name,
        file_name <> "" -> PyStr.contains "/" file_name = false ->
        PosixPath.dirname (PosixPath.join "/pkg/temp" file_name) = "/pkg/temp"
        /\ Tools.create_path_if_nonexistent
             (PosixPath.dirname (PosixPath.join "/pkg/temp" file_name))
             (Os.World (<["/pkg/temp" := Os.Dir]> (<["/pkg" := Os.Dir]> Example.root_only)) 0)
           = (Ok tt,
              Os.World (<["/pkg/temp" := Os.Dir]> (<["/pkg" := Os.Dir]> Example.root_only)) 0)).
Proof.
  apply (temporary_dir_holds_cache_paths "/pkg" "/pkg/temp"
           (Os.World (<["/pkg" := Os.Dir]> Example.root_only) 0)
           (Os.World (<["/pkg/temp" := Os.Dir]> (<["/pkg" := Os.Dir]> Example.root_only)) 0)).
  reflexivity.
Defined.

(** ** Storing, loading again, evicting *)

Lemma write_file_returns (p content : string) (w w1 : Os.world) :
  Os.write_file p content w = (Ok tt, w1) ->
  Os.stat (Os.files w1) p = Some (Os.File content).
Proof.
  unfold Os.write_file. destruct p as [|c p]; [discriminate|]. cbn [PyStr.is_empty].
  destruct (Os.check_parent (Os.files w) (String c p)); [|discriminate].
  destruct (Os.stat (Os.files w) (String c p)) as [[|]|]; try discriminate;
    destruct (PyStr.endswith (String c p) "/"); try discriminate;
    intros [= <-]; now apply stat_insert_eq.
Qed.

Lemma remove_file (p content : string) (w : Os.world) :
  Os.stat (Os.files w) p = Some (Os.File content) ->
  Os.remove p w = (Ok tt, Os.set_files w (delete p (Os.files w))).
Proof. intros H. unfold Os.remove. now rewrite H. Qed.

Lemma stat_delete_eq (fs : gmap string Os.node) (p : string) :
  Os.stat (delete p fs) p = None.
Proof. unfold Os.stat. destruct (PyStr.is_empty p); [reflexivity | apply lookup_delete_eq]. Qed.

Lemma stat_delete_ne (fs : gmap string Os.node) (p q : string) :
  p <> q -> Os.stat (delete p fs) q = Os.stat fs q.
Proof.
  intros Hne. unfold Os.stat. destruct (PyStr.is_empty q); [reflexivity|].
  now apply lookup_delete_ne.
Qed.

Section CacheLifeCycle.

Variable table : Type.
Variable pickle_dumps : table -> string.
Variable pickle_loads : string -> result table.

Abbreviation load := (load_data_frame_with_cache table pickle_dumps pickle_loads).

Lemma compute_and_store_returns (data_frame_loader : loader table) (cache_path : string)
  (w w1 : Os.world) (recording_data : table) :
  compute_and_store table pickle_dumps data_frame_loader cache_path w
  = (Ok recording_data, w1) ->
  Os.stat (Os.files w1) cache_path = Some (Os.File (pickle_dumps recording_data)).
Proof.
  destruct (data_frame_loader (Os.files w)) as [[v|e] fs] eqn:Hl.
  - rewrite (compute_and_store_ok _ _ _ _ _ _ _ Hl).
    destruct (Tools.create_path_if_nonexistent _ _) as [[[]|e] w2]; [|discriminate].
    destruct (Os.write_file cache_path (pickle_dumps v) w2) as [[[]|e] w3] eqn:Hw;
      [|discriminate].
    intros [= <- <-]. exact (write_file_returns _ _ _ _ Hw).
  - rewrite (compute_and_store_raise _ _ _ _ _ _ _ Hl). discriminate.
Qed.

(** X12. What one call returns, the next call for the same key returns
    from the file: when a call has returned a table that unpickles from
    its own pickle, a further call with any loader returns that table,
    calls no loader and changes nothing. *)
Theorem load_again (data_frame_loader other_loader : loader table) (cache_path : string)
  (w w1 : Os.world) (recording_data : table) :
  load data_frame_loader cache_path w = (Ok recording_data, w1) ->
  pickle_loads (pickle_dumps recording_data) = Ok recording_data ->
  load other_loader cache_path w1 = (Ok recording_data, w1).
Proof.
  intros Hfirst Hpickle.
  destruct (Os.stat (Os.files w) cache_path) as [[content|]|] eqn:Hstat.
  - rewrite (load_hit _ _ _ _ _ _ _ Hstat) in Hfirst. injection Hfirst as Hc <-.
    rewrite (load_hit _ _ _ _ _ _ _ Hstat). now rewrite Hc.
  - rewrite load_miss in Hfirst by (intros content; congruence).
    apply compute_and_store_returns in Hfirst.
    rewrite (load_hit _ _ _ _ _ _ _ Hfirst). now rewrite Hpickle.
  - rewrite load_miss in Hfirst by (intros content; congruence).
    apply compute_and_store_returns in Hfirst.
    rewrite (load_hit _ _ _ _ _ _ _ Hfirst). now rewrite Hpickle.
Qed.

(** X13. Emptying a cache removes the file at the path and nothing else,
    and the next load for that path calls its loader; without a file at
    the path it raises FileNotFoundError, on a directory
    IsADirectoryError, and nothing changes.  Both tables are emptied by
    the same call. *)
Theorem empty_cache_then_load (cache_path : string) (w : Os.world) :
  (forall content,
     Os.stat (Os.files w) cache_path = Some (Os.File content) ->
     let w1 := Os.set_files w (delete cache_path (Os.files w)) in
     empty_cache_recordings cache_path w = (Ok tt, w1)
     /\ Os.stat (Os.files w1) cache_path = None
     /\ (forall q, q <> cache_path -> Os.stat (Os.files w1) q = Os.stat (Os.files w) q)
     /\ (forall data_frame_loader,
           Os.loader_calls (snd (load data_frame_loader cache_path w1))
           = S (Os.loader_calls w)))
  /\ (Os.stat (Os.files w) cache_path = None ->
      empty_cache_recordings cache_path w = (Raise FileNotFoundError, w))
  /\ (Os.stat (Os.files w) cache_path = Some Os.Dir ->
      empty_cache_recordings cache_path w = (Raise IsADirectoryError, w))
  /\ empty_cache_patients cache_path w = empty_cache_recordings cache_path w.
Proof.
  unfold empty_cache_recordings, empty_cache_patients.
  split; [|split; [|split]].
  - intros content Hstat. cbv zeta.
    set (w1 := Os.set_files w (delete cache_path (Os.files w))).
    assert (Hgone : Os.stat (Os.files w1) cache_path = None) by apply stat_delete_eq.
    split; [exact (remove_file _ _ _ Hstat)|]. split; [exact Hgone|]. split.
    + intros q Hq. apply stat_delete_ne. congruence.
    + intros data_frame_loader.
      rewrite load_miss by (intros c; rewrite Hgone; discriminate).
      rewrite compute_and_store_calls. reflexivity.
  - intros Hstat. unfold Os.remove. now rewrite Hstat.
  - intros Hstat. unfold Os.remove. now rewrite Hstat.
  - reflexivity.
Qed.

(** X14. Importing the package with both caches in place reads them:
    when the temporary directory exists and both cache files unpickle,
    the import returns the two paths and the two tables, calls no loader
    and changes nothing.  When the temporary directory is absent and
    cannot be made, the import raises before any loader is called. *)
Theorem import_package_warm (base : string) (load_recordings load_patients : loader table)
  (w : Os.world) :
  let temp := PosixPath.join base "temp" in
  let path_recordings := PosixPath.join temp "_all_recording_data.pkl" in
  let path_patients := PosixPath.join temp "_all_patient_data.pkl" in
  (forall n pickled_recordings pickled_patients recordings patients,
     Os.stat (Os.files w) temp = Some n ->
     Os.stat (Os.files w) path_recordings = Some (Os.File pickled_recordings) ->
     Os.stat (Os.files w) path_patients = Some (Os.File pickled_patients) ->
     pickle_loads pickled_recordings = Ok recordings ->
     pickle_loads pickled_patients = Ok patients ->
     import_package table pickle_dumps pickle_loads base load_recordings load_patients w
     = (Ok {| _cache_path_recordings := path_recordings;
              _cache_path_patients := path_patients;
              _recordings := recordings;
              _patients := patients |}, w))
  /\ (forall e,
        Os.stat (Os.files w) temp = None ->
        Os.check_parent (Os.files w) temp = Raise e ->
        import_package table pickle_dumps pickle_loads base load_recordings load_patients w
        = (Raise e, w)).
Proof.
  intros temp path_recordings path_patients. split.
  - intros n c1 c2 recordings patients Htemp H1 H2 Hl1 Hl2.
    unfold import_package, Tools.get_temporary_dir. cbv zeta.
    fold temp. unfold Os.bind at 1 2. rewrite (create_path_present temp w n Htemp).
    unfold Os.ret at 1. unfold Os.bind at 1 2. rewrite (create_path_present temp w n Htemp).
    unfold Os.ret at 1. fold path_recordings path_patients.
    unfold Os.bind at 1. rewrite (load_hit _ _ _ _ _ _ _ H1), Hl1.
    unfold Os.bind at 1. rewrite (load_hit _ _ _ _ _ _ _ H2), Hl2.
    reflexivity.
  - intros e Htemp Hparent.
    unfold import_package, Tools.get_temporary_dir. cbv zeta.
    fold temp. unfold Os.bind at 1 2. rewrite (create_path_absent temp w Htemp).
    now rewrite (mkdir_no_parent temp w e Hparent).
Qed.

End CacheLifeCycle.

Lemma load_again_witness :
  load_data_frame_with_cache Z Example.dumps Example.loads
    (fun fs => (Raise KeyError, fs)) "/c.pkl"
    (Os.World (<["/c.pkl" := Os.File (Example.dumps 42)]> Example.root_only) 1)
  = (Ok 42, Os.World (<["/c.pkl" := Os.File (Example.dumps 42)]> Example.root_only) 1).
Proof.
  apply (load_again Z Example.dumps Example.loads Example.loader42
           (fun fs => (Raise KeyError, fs)) "/c.pkl" (Os.World Example.root_only 0));
    reflexivity.
Defined.

Lemma empty_cache_then_load_witness :
  empty_cache_recordings "/c.pkl"
    (Os.World (<["/c.pkl" := Os.File "forty-two"]> Example.root_only) 0)
  = (Ok tt,
     Os.set_files (Os.World (<["/c.pkl" := Os.File "forty-two"]> Example.root_only) 0)
       (delete "/c.pkl"
          (Os.files (Os.World (<["/c.pkl" := Os.File "forty-two"]> Example.root_only) 0))))
  /\ empty_cache_recordings "/c.pkl" (Os.World Example.root_only 0)
     = (Raise FileNotFoundError, Os.World Example.root_only 0).
Proof.
  split.
  - apply (proj1 (empty_cache_then_load Z Example.dumps Example.loads "/c.pkl"
                    (Os.World (<["/c.pkl" := Os.File "forty-two"]> Example.root_only) 0))
             "forty-two").
    reflexivity.
  - apply (proj1 (proj2 (empty_cache_then_load Z Example.dumps Example.loads "/c.pkl"
                           (Os.World Example.root_only 0)))).
    reflexivity.
Defined.

Lemma import_package_warm_witness :
  import_package Z Example.dumps Example.loads "/pkg" Example.loader42 Example.loader42
    (Os.World (<["/pkg/temp/_all_patient_data.pkl" := Os.File "forty-two"]>
                 (<["/pkg/temp/_all_recording_data.pkl" := Os.File "forty-two"]>
                    (<["/pkg/temp" := Os.Dir]> (<["/pkg" := Os.Dir]> Example.root_only)))) 0)
  = (Ok {| _cache_path_recordings :=
             PosixPath.join (PosixPath.join "/pkg" "temp") "_all_recording_data.pkl";
           _cache_path_patients :=
             PosixPath.join (PosixPath.join "/pkg" "temp") "_all_patient_data.pkl";
           _recordings := 42;
           _patients := 42 |},
     Os.World (<["/pkg/temp/_all_patient_data.pkl" := Os.File "forty-two"]>
                 (<["/pkg/temp/_all_recording_data.pkl" := Os.File "forty-two"]>
                    (<["/pkg/temp" := Os.Dir]> (<["/pkg" := Os.Dir]> Example.root_only)))) 0)
  /\ import_package Z Example.dumps Example.loads "/nowhere" Example.loader42
       Example.loader42 (Os.World Example.root_only 0)
     = (Raise FileNotFoundError, Os.World Example.root_only 0).
Proof.
  split.
  - apply (proj1 (import_package_warm Z Example.dumps Example.loads "/pkg"
                    Example.loader42 Example.loader42 _)
             Os.Dir "forty-two" "forty-two" 42 42); reflexivity.
  - apply (proj2 (import_package_warm Z Example.dumps Example.loads "/nowhere"
                    Example.loader42 Example.loader42 (Os.World Example.root_only 0)));
      reflexivity.
Defined.

(** ** Blanks around a demographic line *)

Lemma split_whitespace_cons_space (c : ascii) (s : string) :
  PyStr.isspace c = true ->
  PyStr.split_whitespace (String c s) = PyStr.split_whitespace s.
Proof.
  intros Hc. unfold PyStr.split_whitespace. now rewrite (split_by_cons_sep _ _ _ Hc).
Qed.

Lemma split_whitespace_snoc_space (c : ascii) (s : string) :
  PyStr.isspace c = true ->
  PyStr.split_whitespace (s ++ String c EmptyString) = PyStr.split_whitespace s.
Proof.
  intros Hc. unfold PyStr.split_whitespace.
  rewrite (split_by_app_sep _ _ _ _ Hc), filter_app. cbn [PyStr.split_by].
  change (filter (fun w => PyStr.is_empty w = false) [EmptyString]) with (@nil string).
  now rewrite app_nil_r.
Qed.

Lemma demographic_line_fields (line line' : string) :
  PyStr.split_whitespace line = PyStr.split_whitespace line' ->
  Patients.demographic_line line = Patients.demographic_line line'.
Proof.
  intros H. unfold Patients.demographic_line. now rewrite !strip_split, H.
Qed.

(** X15. A blank before or after a demographic line does not change its
    record or its failure: in particular the newline that ends a line
    read from the file does not count as a field. *)
Theorem demographic_line_ignores_blanks (line : string) (c : ascii) :
  PyStr.isspace c = true ->
  Patients.demographic_line (line ++ String c EmptyString) = Patients.demographic_line line
  /\ Patients.demographic_line (String c line) = Patients.demographic_line line.
Proof.
  intros Hc. split; apply demographic_line_fields.
  - now apply split_whitespace_snoc_space.
  - now apply split_whitespace_cons_space.
Qed.

Lemma demographic_line_ignores_blanks_witness :
  Patients.demographic_line ("101 3 M 16.4 NA NA" ++ String "010" EmptyString)
  = Patients.demographic_line "101 3 M 16.4 NA NA"
  /\ Patients.demographic_line (String "010" "101 3 M 16.4 NA NA")
     = Patients.demographic_line "101 3 M 16.4 NA NA".
Proof. apply (demographic_line_ignores_blanks "101 3 M 16.4 NA NA" "010"). reflexivity. Defined.
